(** * Loyalfly Share: the upload / list / rename / delete / view workflow

  A shallow embedding of the React application (the Firestore-backed
  [App] with its [FileViewer] and [Uploader] components) and the
  properties of its handlers.

  JavaScript strings are sequences of UTF-16 code units, arrays are lists,
  [null] is [None].  The remote document store, the clipboard, the file
  reader and the dialogs are external: a handler receives their replies
  from an environment and every request it issues is recorded in a trace,
  together with the component state that is on screen while the request
  is pending. *)

From Stdlib Require Import List NArith ZArith Bool String Ascii Lia.
From Stdlib Require Import DecimalString.
Import ListNotations.

Set Implicit Arguments.

(* ------------------------------------------------------------------ *)
(** ** JavaScript strings *)

Module Js.

(** A string value: its UTF-16 code units. *)
Definition str := list N.

(** An ASCII literal of the source. *)
Definition lit (s : string) : str :=
  map N_of_ascii (list_ascii_of_string s).

(** [a === b] on strings. *)
Fixpoint eqb (a b : str) : bool :=
  match a, b with
  | [], [] => true
  | x :: a', y :: b' => (x =? y)%N && eqb a' b'
  | _, _ => false
  end.

(** Truthiness of a string: only the empty string is falsy. *)
Definition truthy (s : str) : bool :=
  match s with [] => false | _ :: _ => true end.

(** Truthiness of a possibly [undefined]/[null] string. *)
Definition truthy_opt (s : option str) : bool :=
  match s with None => false | Some s' => truthy s' end.

(** [x === lit] where [x] may be [undefined]. *)
Definition opt_eqb (x : option str) (s : str) : bool :=
  match x with None => false | Some x' => eqb x' s end.

(** [s.startsWith(p)]. *)
Fixpoint startsWith (s p : str) : bool :=
  match p, s with
  | [], _ => true
  | c :: p', d :: s' => (c =? d)%N && startsWith s' p'
  | _ :: _, [] => false
  end.

(** [s.slice(1)]. *)
Definition slice1 (s : str) : str := tl s.

(** [s.split(sep)] for a one-unit separator. *)
Fixpoint split (sep : N) (s : str) : list str :=
  match s with
  | [] => [[]]
  | c :: rest =>
      if (c =? sep)%N then [] :: split sep rest
      else match split sep rest with
           | [] => [[c]]
           | seg :: segs => (c :: seg) :: segs
           end
  end.

(** [segs.join(sep)] for a one-unit separator. *)
Fixpoint join (sep : N) (segs : list str) : str :=
  match segs with
  | [] => []
  | [seg] => seg
  | seg :: rest => seg ++ sep :: join sep rest
  end.

(** [arr.includes(s)] on an array of strings. *)
Definition includes (arr : list str) (s : str) : bool :=
  existsb (fun a => eqb a s) arr.

(** WhiteSpace and LineTerminator code units of ECMAScript, the ones
    [String.prototype.trim] strips. *)
Definition is_space (c : N) : bool :=
  ((9 <=? c) && (c <=? 13) || (c =? 32) || (c =? 160) || (c =? 5760)
   || (8192 <=? c) && (c <=? 8202) || (c =? 8232) || (c =? 8233)
   || (c =? 8239) || (c =? 8287) || (c =? 12288) || (c =? 65279))%N.

Fixpoint trimStart (s : str) : str :=
  match s with
  | [] => []
  | c :: rest => if is_space c then trimStart rest else s
  end.

Definition trimEnd (s : str) : str := rev (trimStart (rev s)).

(** [s.trim()]. *)
Definition trim (s : str) : str := trimEnd (trimStart s).

(** [n.toFixed(0)] for a non-negative integer. *)
Definition toFixed0 (n : N) : str :=
  lit (NilEmpty.string_of_uint (N.to_uint n)).

End Js.

Abbreviation jsstring := Js.str.

(* ------------------------------------------------------------------ *)
(** ** App: fragment routing *)

Module Router.

(** The two values the source ever stores in [route.path]. *)
Inductive Path := home | view.

Record Route := { path : Path; id : option jsstring }.

(** [useState({ path: 'home', id: null })]. *)
Definition initial : Route := {| path := home; id := None |}.

(** [hash.split('/').filter(p => p)] for [hash = location.hash.slice(1)]. *)
Definition parts (location_hash : jsstring) : list jsstring :=
  filter Js.truthy (Js.split 47 (Js.slice1 location_hash)).

(** The state [handleHashChange] sets, given [window.location.hash]. *)
Definition handleHashChange (location_hash : jsstring) : Route :=
  let parts := parts location_hash in
  if Js.opt_eqb (nth_error parts 0) (Js.lit "view")
     && Js.truthy_opt (nth_error parts 1)
  then {| path := view; id := nth_error parts 1 |}
  else {| path := home; id := None |}.

(** What [App] returns for a route. *)
Inductive Mounted :=
| MountFileViewer (fileId : jsstring)
| MountUploader.

Definition App (route : Route) : Mounted :=
  match path route, id route with
  | view, Some i => if Js.truthy i then MountFileViewer i else MountUploader
  | _, _ => MountUploader
  end.

(** The transition rule in the words of the specification, on the list of
    non-empty segments. *)
Definition spec_state (segments : list jsstring) : Route :=
  match segments with
  | s0 :: s1 :: _ =>
      if Js.eqb s0 (Js.lit "view") && negb (Js.eqb s1 [])
      then {| path := view; id := Some s1 |}
      else {| path := home; id := None |}
  | _ => {| path := home; id := None |}
  end.

(** The view the specification mounts for a state. *)
Definition spec_mount (r : Route) : Mounted :=
  match r with
  | {| path := view; id := Some i |} => MountFileViewer i
  | _ => MountUploader
  end.

End Router.

(* ------------------------------------------------------------------ *)
(** ** Records of the data model *)

(** A Firestore [Timestamp]. *)
Record Timestamp := { seconds : Z; nanoseconds : Z }.

(** The browser's [File]: the three properties the source reads. *)
Module File.
Record t := { name : jsstring; size : N; type : jsstring }.
End File.

(** [Omit<UploadedFile, 'id'>], what [doc.data()] is cast to. *)
Module FileData.
Record t := {
  displayName : jsstring;
  dataUrl : jsstring;
  size : N;
  type : jsstring;
  createdAt : Timestamp }.
End FileData.

(** [interface UploadedFile]. *)
Module UploadedFile.
Record t := {
  id : jsstring;
  displayName : jsstring;
  dataUrl : jsstring;
  size : N;
  type : jsstring;
  createdAt : Timestamp }.

(** [{ ...doc.data(), id: doc.id }]. *)
Definition of_doc (doc : jsstring * FileData.t) : t :=
  let d := snd doc in
  {| id := fst doc;
     displayName := FileData.displayName d;
     dataUrl := FileData.dataUrl d;
     size := FileData.size d;
     type := FileData.type d;
     createdAt := FileData.createdAt d |}.

(** [{ ...f, displayName: n }]. *)
Definition with_displayName (f : t) (n : jsstring) : t :=
  {| id := id f;
     displayName := n;
     dataUrl := dataUrl f;
     size := size f;
     type := type f;
     createdAt := createdAt f |}.
End UploadedFile.

(** What a write can put in a timestamp field: the sentinel
    [serverTimestamp()] returns, which the store replaces by its own clock
    when the write is applied, or a [Timestamp] made on the client. *)
Inductive FieldValue :=
| serverTimestamp
| timestamp_value (t : Timestamp).

(** The object literal [handleUpload] passes to [addDoc]. *)
Module NewDoc.
Record t := {
  displayName : jsstring;
  dataUrl : jsstring;
  size : N;
  type : jsstring;
  createdAt : FieldValue }.
End NewDoc.

(* ------------------------------------------------------------------ *)
(** ** The outside world: requests, replies, traces *)

(** A settled promise. *)
Inductive Settled (A : Type) :=
| Fulfilled (value : A)
| Rejected (reason : jsstring).
Arguments Fulfilled {A} value.
Arguments Rejected {A} reason.

(** What a handler does to the outside world. *)
Inductive Event :=
| alert (message : jsstring)
| console_error (args : list jsstring)
| window_confirm (message : jsstring)
| clipboard_writeText (text : jsstring)
| fileToDataURL (file : File.t)
| addDoc (data : NewDoc.t)
| getDocs_by_createdAt_desc
| getDoc (id : jsstring)
| updateDoc (id : jsstring) (displayName : jsstring)
| deleteDoc (id : jsstring).

(** The replies of the outside world during one run of a handler.  No
    handler issues the same request twice, so a reply per request loses
    nothing. *)
Record Env := {
  reply_confirm : jsstring -> bool;
  reply_writeText : jsstring -> Settled unit;
  reply_fileToDataURL : File.t -> Settled jsstring;
  reply_addDoc : NewDoc.t -> Settled jsstring;
  reply_getDocs : Settled (list (jsstring * FileData.t));
  reply_getDoc : jsstring -> Settled (option FileData.t);
  reply_updateDoc : jsstring -> jsstring -> Settled unit;
  reply_deleteDoc : jsstring -> Settled unit }.

(** How a block of statements ends. *)
Inductive Completion (A : Type) :=
| Normal (value : A)
| Throw (reason : jsstring).
Arguments Normal {A} value.
Arguments Throw {A} reason.

Section Effects.

Variable St : Type.

(** Each event with the component state at the moment it happens: for a
    request, the state that is rendered while its promise is pending. *)
Definition Trace := list (St * Event).

Definition Eff (A : Type) := St -> Completion A * St * Trace.

Definition ret {A} (a : A) : Eff A := fun st => (Normal a, st, []).

Definition throw {A} (reason : jsstring) : Eff A :=
  fun st => (Throw reason, st, []).

Definition bind {A B} (m : Eff A) (k : A -> Eff B) : Eff B :=
  fun st =>
    match m st with
    | (Normal a, st1, tr1) =>
        match k a st1 with
        | (c, st2, tr2) => (c, st2, tr1 ++ tr2)
        end
    | (Throw e, st1, tr1) => (Throw e, st1, tr1)
    end.

Definition get : Eff St := fun st => (Normal st, st, []).

(** A state setter. *)
Definition modify (f : St -> St) : Eff unit :=
  fun st => (Normal tt, f st, []).

Definition emit (e : Event) : Eff unit :=
  fun st => (Normal tt, st, [(st, e)]).

(** Issue a request and receive the settled promise. *)
Definition request {A} (e : Event) (reply : Settled A) : Eff (Settled A) :=
  bind (emit e) (fun _ => ret reply).

(** [await]: a rejection is thrown. *)
Definition await {A} (e : Event) (reply : Settled A) : Eff A :=
  bind (request e reply)
       (fun r => match r with
                 | Fulfilled a => ret a
                 | Rejected reason => throw reason
                 end).

(** [try { body } catch (error) { handler } finally { fin }]. *)
Definition try_catch_finally
    (body : Eff unit) (handler : jsstring -> Eff unit) (fin : Eff unit)
    : Eff unit :=
  fun st =>
    let '(c1, st1, tr1) := body st in
    let '(c2, st2, tr2) :=
      match c1 with
      | Normal _ => (c1, st1, [])
      | Throw e => handler e st1
      end in
    let '(c3, st3, tr3) := fin st2 in
    (match c3 with Normal _ => c2 | Throw _ => c3 end,
     st3, tr1 ++ tr2 ++ tr3).

(** [try { body } catch (error) { handler }]. *)
Definition try_catch (body : Eff unit) (handler : jsstring -> Eff unit)
    : Eff unit :=
  try_catch_finally body handler (ret tt).

(** Run a handler from a state: the final state and the trace. *)
Definition run {A} (m : Eff A) (st : St) : St * Trace :=
  let '(_, st', tr) := m st in (st', tr).

Definition completion {A} (m : Eff A) (st : St) : Completion A :=
  let '(c, _, _) := m st in c.

End Effects.

Arguments ret {St A} a.
Arguments throw {St A} reason.
Arguments get {St}.
Arguments emit {St} e.
Arguments request {St A} e reply.
Arguments await {St A} e reply.

Declare Scope eff_scope.
Delimit Scope eff_scope with eff.
Notation "x <- m ;; k" := (bind m (fun x => k))
  (at level 100, m at next level, right associativity) : eff_scope.
Notation "m ;; k" := (bind m (fun _ => k))
  (at level 100, right associativity) : eff_scope.

(** *** Two environments to run the handlers in *)

Definition find_doc (docs : list (jsstring * FileData.t)) (id : jsstring)
    : option FileData.t :=
  match find (fun d => Js.eqb (fst d) id) docs with
  | Some d => Some (snd d)
  | None => None
  end.

(** Every request succeeds; the store holds [docs]. *)
Definition env_with (docs : list (jsstring * FileData.t)) : Env :=
  {| reply_confirm := fun _ => true;
     reply_writeText := fun _ => Fulfilled tt;
     reply_fileToDataURL := fun _ => Fulfilled (Js.lit "data:;base64,");
     reply_addDoc := fun _ => Fulfilled (Js.lit "doc1");
     reply_getDocs := Fulfilled docs;
     reply_getDoc := fun id => Fulfilled (find_doc docs id);
     reply_updateDoc := fun _ _ => Fulfilled tt;
     reply_deleteDoc := fun _ => Fulfilled tt |}.

Definition env_online : Env := env_with [].

(** The user confirms, every promise is rejected. *)
Definition env_offline : Env :=
  {| reply_confirm := fun _ => true;
     reply_writeText := fun _ => Rejected (Js.lit "offline");
     reply_fileToDataURL := fun _ => Rejected (Js.lit "offline");
     reply_addDoc := fun _ => Rejected (Js.lit "offline");
     reply_getDocs := Rejected (Js.lit "offline");
     reply_getDoc := fun _ => Rejected (Js.lit "offline");
     reply_updateDoc := fun _ _ => Rejected (Js.lit "offline");
     reply_deleteDoc := fun _ => Rejected (Js.lit "offline") |}.

(** *** Reading a trace *)

Definition created (e : Event) : list NewDoc.t :=
  match e with addDoc d => [d] | _ => [] end.

(** The records the trace asks the store to create. *)
Definition creates (St : Type) (tr : Trace St) : list NewDoc.t :=
  flat_map (fun x => created (snd x)) tr.

Definition alerted (e : Event) : list jsstring :=
  match e with alert m => [m] | _ => [] end.

(** The messages shown to the user. *)
Definition alerts (St : Type) (tr : Trace St) : list jsstring :=
  flat_map (fun x => alerted (snd x)) tr.

Definition is_store_request (e : Event) : bool :=
  match e with
  | addDoc _ | getDocs_by_createdAt_desc | getDoc _
  | updateDoc _ _ | deleteDoc _ => true
  | _ => false
  end.

(** The requests sent to the document store. *)
Definition store_requests (St : Type) (tr : Trace St) : list Event :=
  filter is_store_request (map snd tr).

(* ------------------------------------------------------------------ *)
(** ** FileViewer *)

Module FileViewer.

Local Open Scope eff_scope.

Record State := {
  file : option FileData.t;
  error : option jsstring;
  isLoading : bool }.

(** The three [useState] initial values. *)
Definition initial : State :=
  {| file := None; error := None; isLoading := true |}.

Definition setFile (v : option FileData.t) : Eff State unit :=
  modify (fun st =>
    {| file := v; error := error st; isLoading := isLoading st |}).

Definition setError (v : option jsstring) : Eff State unit :=
  modify (fun st =>
    {| file := file st; error := v; isLoading := isLoading st |}).

Definition setIsLoading (v : bool) : Eff State unit :=
  modify (fun st =>
    {| file := file st; error := error st; isLoading := v |}).

Definition msg_not_found : jsstring :=
  Js.lit "El archivo no fue encontrado.".

Definition msg_load_error : jsstring :=
  Js.lit "Hubo un error al cargar el archivo.".

(** The effect run on mount: [fetchFile()].  A snapshot that does not
    exist is [Fulfilled None]. *)
Definition fetchFile (env : Env) (fileId : jsstring) : Eff State unit :=
  try_catch_finally
    (docSnap <- await (getDoc fileId) (reply_getDoc env fileId) ;;
     match docSnap with
     | Some data => setFile (Some data)
     | None => setError (Some msg_not_found)
     end)
    (fun err =>
       setError (Some msg_load_error) ;;
       emit (console_error [err]))
    (setIsLoading false).

(** What the component returns. *)
Inductive Element :=
| spinner
| error_view (message : jsstring) (link_href : jsstring)
| img (src alt : jsstring)
| iframe (src title : jsstring)
| null.

Definition render (st : State) : Element :=
  if isLoading st then spinner
  else if Js.truthy_opt (error st) then
    match error st with
    | Some message => error_view message (Js.lit "/")
    | None => null
    end
  else
    match file st with
    | Some f =>
        if Js.startsWith (FileData.type f) (Js.lit "image/") then
          img (FileData.dataUrl f) (FileData.displayName f)
        else if Js.eqb (FileData.type f) (Js.lit "application/pdf") then
          iframe (FileData.dataUrl f) (FileData.displayName f)
        else null
    | None => null
    end.

(** The component after its mount effect has run to completion. *)
Definition mounted (env : Env) (fileId : jsstring) : State * Trace State :=
  run (fetchFile env fileId) initial.

End FileViewer.

(* ------------------------------------------------------------------ *)
(** ** Uploader *)

Module Uploader.

Local Open Scope eff_scope.

Record State := {
  files : list UploadedFile.t;
  isDragging : bool;
  isUploading : bool;
  isLoading : bool;
  copiedUrlId : option jsstring;
  editingFile : option UploadedFile.t;
  newDisplayName : jsstring }.

Definition initial : State :=
  {| files := []; isDragging := false; isUploading := false;
     isLoading := true; copiedUrlId := None; editingFile := None;
     newDisplayName := [] |}.

Definition updFiles (f : list UploadedFile.t -> list UploadedFile.t)
    (st : State) : State :=
  {| files := f (files st); isDragging := isDragging st;
     isUploading := isUploading st; isLoading := isLoading st;
     copiedUrlId := copiedUrlId st; editingFile := editingFile st;
     newDisplayName := newDisplayName st |}.

Definition updIsDragging (v : bool) (st : State) : State :=
  {| files := files st; isDragging := v;
     isUploading := isUploading st; isLoading := isLoading st;
     copiedUrlId := copiedUrlId st; editingFile := editingFile st;
     newDisplayName := newDisplayName st |}.

Definition updIsUploading (v : bool) (st : State) : State :=
  {| files := files st; isDragging := isDragging st;
     isUploading := v; isLoading := isLoading st;
     copiedUrlId := copiedUrlId st; editingFile := editingFile st;
     newDisplayName := newDisplayName st |}.

Definition updIsLoading (v : bool) (st : State) : State :=
  {| files := files st; isDragging := isDragging st;
     isUploading := isUploading st; isLoading := v;
     copiedUrlId := copiedUrlId st; editingFile := editingFile st;
     newDisplayName := newDisplayName st |}.

Definition updCopiedUrlId (v : option jsstring) (st : State) : State :=
  {| files := files st; isDragging := isDragging st;
     isUploading := isUploading st; isLoading := isLoading st;
     copiedUrlId := v; editingFile := editingFile st;
     newDisplayName := newDisplayName st |}.

Definition updEditingFile (v : option UploadedFile.t) (st : State) : State :=
  {| files := files st; isDragging := isDragging st;
     isUploading := isUploading st; isLoading := isLoading st;
     copiedUrlId := copiedUrlId st; editingFile := v;
     newDisplayName := newDisplayName st |}.

Definition updNewDisplayName (v : jsstring) (st : State) : State :=
  {| files := files st; isDragging := isDragging st;
     isUploading := isUploading st; isLoading := isLoading st;
     copiedUrlId := copiedUrlId st; editingFile := editingFile st;
     newDisplayName := v |}.

Definition setFiles f : Eff State unit := modify (updFiles f).
Definition setIsDragging v : Eff State unit := modify (updIsDragging v).
Definition setIsUploading v : Eff State unit := modify (updIsUploading v).
Definition setIsLoading v : Eff State unit := modify (updIsLoading v).
Definition setEditingFile v : Eff State unit := modify (updEditingFile v).
Definition setNewDisplayName v : Eff State unit :=
  modify (updNewDisplayName v).

Definition acceptedFileTypes : list jsstring :=
  [Js.lit "image/svg+xml"; Js.lit "image/jpeg"; Js.lit "image/png";
   Js.lit "application/pdf"].

Definition MAX_FILE_SIZE_BYTES : N := 750 * 1024.

(** The alert of the type check; 225 is a with acute accent. *)
Definition msg_invalid_format : jsstring :=
  Js.lit "Formato de archivo no v" ++ [225%N]
  ++ Js.lit "lido. Por favor sube un SVG, JPG, PNG, o PDF.".

(** The alert of the size check; 237 is i with acute accent. *)
Definition msg_too_large : jsstring :=
  Js.lit "El archivo es demasiado grande. El l" ++ [237%N]
  ++ Js.lit "mite es de " ++ Js.toFixed0 (MAX_FILE_SIZE_BYTES / 1024)
  ++ Js.lit " KB para evitar errores en la base de datos.".

Definition msg_upload_error : jsstring :=
  Js.lit "Hubo un error al subir el archivo.".

Definition msg_delete_error : jsstring :=
  Js.lit "Hubo un error al eliminar el archivo.".

Definition msg_rename_error : jsstring :=
  Js.lit "Hubo un error al cambiar el nombre.".

(** The question of [window.confirm]; 191 is the inverted question mark,
    225 is a with acute accent, 34 the double quote. *)
Definition msg_confirm_delete (displayName : jsstring) : jsstring :=
  [191%N] ++ Js.lit "Est" ++ [225%N]
  ++ Js.lit "s seguro de que quieres eliminar " ++ [34%N]
  ++ displayName ++ [34%N] ++ Js.lit "?".

Definition fetchFiles (env : Env) : Eff State unit :=
  setIsLoading true ;;
  filesSnapshot <- await getDocs_by_createdAt_desc (reply_getDocs env) ;;
  let filesList := map UploadedFile.of_doc filesSnapshot in
  setFiles (fun _ => filesList) ;;
  setIsLoading false.

Definition handleUpload (env : Env) (selectedFile : option File.t)
    : Eff State unit :=
  match selectedFile with
  | None => ret tt
  | Some selectedFile =>
      if negb (Js.includes acceptedFileTypes (File.type selectedFile)) then
        emit (alert msg_invalid_format)
      else if (MAX_FILE_SIZE_BYTES <? File.size selectedFile)%N then
        emit (alert msg_too_large)
      else
        setIsUploading true ;;
        try_catch_finally
          (dataUrl <- await (fileToDataURL selectedFile)
                            (reply_fileToDataURL env selectedFile) ;;
           let data :=
             {| NewDoc.displayName := File.name selectedFile;
                NewDoc.dataUrl := dataUrl;
                NewDoc.size := File.size selectedFile;
                NewDoc.type := File.type selectedFile;
                NewDoc.createdAt := serverTimestamp |} in
           _ <- await (addDoc data) (reply_addDoc env data) ;;
           fetchFiles env)
          (fun error =>
             emit (console_error
                     [Js.lit "Error uploading file to Firestore:"; error]) ;;
             emit (alert msg_upload_error))
          (setIsUploading false)
  end.

(** [handleDrop], given [e.dataTransfer.files]. *)
Definition handleDrop (env : Env) (dropped : list File.t) : Eff State unit :=
  setIsDragging false ;;
  match dropped with
  | first :: _ => handleUpload env (Some first)
  | [] => ret tt
  end.

(** [handleFileSelect], given [e.target.files]. *)
Definition handleFileSelect (env : Env) (chosen : list File.t)
    : Eff State unit :=
  match chosen with
  | first :: _ => handleUpload env (Some first)
  | [] => ret tt
  end.

Definition handleDelete (env : Env) (fileToDelete : UploadedFile.t)
    : Eff State unit :=
  let question :=
      msg_confirm_delete (UploadedFile.displayName fileToDelete) in
  confirmed <- (emit (window_confirm question) ;;
                ret (reply_confirm env question)) ;;
  if negb confirmed then ret tt
  else
    try_catch
      (await (deleteDoc (UploadedFile.id fileToDelete))
             (reply_deleteDoc env (UploadedFile.id fileToDelete)) ;;
       setFiles (filter (fun f =>
         negb (Js.eqb (UploadedFile.id f) (UploadedFile.id fileToDelete)))))
      (fun error =>
         emit (console_error [Js.lit "Error deleting file:"; error]) ;;
         emit (alert msg_delete_error)).

Definition handleEdit (file : UploadedFile.t) : Eff State unit :=
  setEditingFile (Some file) ;;
  setNewDisplayName (UploadedFile.displayName file).

(** The rename rule of [setFiles] in [handleSaveEdit]. *)
Definition rename (target : jsstring) (n : jsstring)
    (fs : list UploadedFile.t) : list UploadedFile.t :=
  map (fun f =>
         if Js.eqb (UploadedFile.id f) target
         then UploadedFile.with_displayName f n
         else f) fs.

(** [handleSaveEdit] reads [editingFile] and [newDisplayName] of the render
    it was created in. *)
Definition handleSaveEdit (env : Env) : Eff State unit :=
  st <- get ;;
  match editingFile st with
  | Some editing =>
      if negb (Js.eqb (Js.trim (newDisplayName st)) []) then
        try_catch_finally
          (await (updateDoc (UploadedFile.id editing)
                            (Js.trim (newDisplayName st)))
                 (reply_updateDoc env (UploadedFile.id editing)
                                  (Js.trim (newDisplayName st))) ;;
           setFiles (rename (UploadedFile.id editing)
                            (Js.trim (newDisplayName st))))
          (fun error =>
             emit (console_error
                     [Js.lit "Error updating file name:"; error]) ;;
             emit (alert msg_rename_error))
          (setEditingFile None ;;
           setNewDisplayName [])
      else ret tt
  | None => ret tt
  end.

Definition handleCancelEdit : Eff State unit :=
  setEditingFile None ;;
  setNewDisplayName [].

(** The keys the rename input reacts to. *)
Inductive Key := Enter | Escape | OtherKey.

Definition onKeyDown (env : Env) (k : Key) : Eff State unit :=
  (match k with Enter => handleSaveEdit env | _ => ret tt end) ;;
  (match k with Escape => handleCancelEdit | _ => ret tt end).

Definition onBlur (env : Env) : Eff State unit := handleSaveEdit env.

(** The label of a row's copy button: 161 is the inverted exclamation
    mark. *)
Definition copied_label : jsstring := [161%N] ++ Js.lit "Copiado!".

Definition copy_button_label (st : State) (file : UploadedFile.t)
    : jsstring :=
  if Js.opt_eqb (copiedUrlId st) (UploadedFile.id file)
  then copied_label
  else Js.lit "Copiar URL".

(** Whether a row shows the copied indicator. *)
Definition shows_copied (st : State) (file : UploadedFile.t) : bool :=
  Js.opt_eqb (copiedUrlId st) (UploadedFile.id file).

(** *** The copy-link action and its timer *)

(** The one callback the source hands to [setTimeout]:
    [() => setCopiedUrlId(null)]. *)
Inductive Callback := clear_copied.

Definition call (cb : Callback) (st : State) : State :=
  match cb with
  | clear_copied => updCopiedUrlId None st
  end.

(** The page around the component: a clock in milliseconds and the pending
    callbacks of [setTimeout], earliest first.  The source never calls
    [clearTimeout]: the queue only loses a timer when it fires. *)
Record Page := {
  now : Z;
  ui : State;
  timers : list (Z * Callback) }.

(** Queue a callback; among equal due times the earlier call fires first. *)
Fixpoint schedule (due : Z) (cb : Callback) (q : list (Z * Callback))
    : list (Z * Callback) :=
  match q with
  | [] => [(due, cb)]
  | entry :: rest =>
      if (due <? fst entry)%Z then (due, cb) :: q
      else entry :: schedule due cb rest
  end.

Definition setTimeout (cb : Callback) (ms : Z) : Eff Page unit :=
  modify (fun p =>
    {| now := now p; ui := ui p;
       timers := schedule (now p + ms) cb (timers p) |}).

Definition setCopiedUrlId (v : option jsstring) : Eff Page unit :=
  modify (fun p =>
    {| now := now p; ui := updCopiedUrlId v (ui p); timers := timers p |}).

(** [handleCopyUrl]: only the fulfilment of [writeText] has a callback. *)
Definition handleCopyUrl (env : Env) (origin pathname : jsstring)
    (file : UploadedFile.t) : Eff Page unit :=
  let urlToCopy :=
      origin ++ pathname ++ Js.lit "#/view/" ++ UploadedFile.id file in
  written <- request (clipboard_writeText urlToCopy)
                     (reply_writeText env urlToCopy) ;;
  match written with
  | Fulfilled _ =>
      setCopiedUrlId (Some (UploadedFile.id file)) ;;
      setTimeout clear_copied 2000
  | Rejected _ => ret tt
  end.

(** The timers due by [t] fire in queue order. *)
Fixpoint fire (t : Z) (q : list (Z * Callback)) (st : State)
    : State * list (Z * Callback) :=
  match q with
  | [] => (st, [])
  | entry :: rest =>
      if (fst entry <=? t)%Z then fire t rest (call (snd entry) st)
      else (st, q)
  end.

(** Time passes until [t] with no user action. *)
Definition advance (t : Z) (p : Page) : Page :=
  let '(st, q) := fire t (timers p) (ui p) in
  {| now := Z.max (now p) t; ui := st; timers := q |}.

(** A click on a row's copy button whose clipboard write succeeds. *)
Definition copy (file : UploadedFile.t) (p : Page) : Page :=
  fst (run (handleCopyUrl env_online [] [] file) p).

(** The two validation checks of [handleUpload], in its order. *)
Definition type_accepted (f : File.t) : bool :=
  Js.includes acceptedFileTypes (File.type f).

Definition size_accepted (f : File.t) : bool :=
  negb (MAX_FILE_SIZE_BYTES <? File.size f)%N.

(** The object [handleUpload] hands to [addDoc] for an encoded file. *)
Definition upload_payload (f : File.t) (dataUrl : jsstring) : NewDoc.t :=
  {| NewDoc.displayName := File.name f;
     NewDoc.dataUrl := dataUrl;
     NewDoc.size := File.size f;
     NewDoc.type := File.type f;
     NewDoc.createdAt := serverTimestamp |}.

Definition upload_failure_log (reason : jsstring) : list Event :=
  [console_error [Js.lit "Error uploading file to Firestore:"; reason];
   alert msg_upload_error].

(** *** Sample inputs *)

Definition sample_png (bytes : N) : File.t :=
  {| File.name := Js.lit "photo.png"; File.size := bytes;
     File.type := Js.lit "image/png" |}.

Definition sample_txt : File.t :=
  {| File.name := Js.lit "notes.txt"; File.size := 10;
     File.type := Js.lit "text/plain" |}.

Definition sample_record (id name : string) : UploadedFile.t :=
  {| UploadedFile.id := Js.lit id;
     UploadedFile.displayName := Js.lit name;
     UploadedFile.dataUrl := Js.lit "data:image/png;base64,AAAA";
     UploadedFile.size := 204800;
     UploadedFile.type := Js.lit "image/png";
     UploadedFile.createdAt := {| seconds := 0; nanoseconds := 0 |} |}.

(** Two listed records, the first one in rename mode with a padded
    buffer. *)
Definition sample_editing : State :=
  {| files := [sample_record "a1" "photo.png"; sample_record "b2" "scan.png"];
     isDragging := false; isUploading := false; isLoading := false;
     copiedUrlId := None;
     editingFile := Some (sample_record "a1" "photo.png");
     newDisplayName := Js.lit "  vacation.png " |}.

(** A record of a type the upload pipeline does not accept. *)
Definition sample_txt_doc : FileData.t :=
  {| FileData.displayName := Js.lit "notes.txt";
     FileData.dataUrl := Js.lit "data:text/plain;base64,aGk=";
     FileData.size := 2;
     FileData.type := Js.lit "text/plain";
     FileData.createdAt := {| seconds := 0; nanoseconds := 0 |} |}.

Definition sample_svg_doc : FileData.t :=
  {| FileData.displayName := Js.lit "logo.svg";
     FileData.dataUrl := Js.lit "data:image/svg+xml;base64,PHN2Zy8+";
     FileData.size := 6;
     FileData.type := Js.lit "image/svg+xml";
     FileData.createdAt := {| seconds := 0; nanoseconds := 0 |} |}.

(** The page at time 0 with the two sample records listed and no timer. *)
Definition sample_page : Page :=
  {| now := 0; ui := updEditingFile None sample_editing; timers := [] |}.

(** Copy the first record at 0 ms, the second at 1000 ms. *)
Definition sample_two_copies : Page :=
  copy (sample_record "b2" "scan.png")
       (advance 1000 (copy (sample_record "a1" "photo.png") sample_page)).

End Uploader.

(* ------------------------------------------------------------------ *)
(** ** Uploader: the rest of the component *)

Module UploaderView.

Import Uploader.
Local Open Scope eff_scope.

(** The three drag handlers; [e.preventDefault()] and
    [e.stopPropagation()] act on the event, not on the component. *)
Definition handleDragEnter : Eff State unit := setIsDragging true.
Definition handleDragLeave : Eff State unit := setIsDragging false.
Definition handleDragOver : Eff State unit := ret tt.

(** [triggerFileSelect]: whether the hidden input is clicked. *)
Definition triggerFileSelect (st : State) : bool := negb (isUploading st).

(** The [disabled] attribute of the hidden input. *)
Definition input_disabled (st : State) : bool := isUploading st.

(** The link [handleCopyUrl] writes to the clipboard. *)
Definition share_fragment (id : jsstring) : jsstring :=
  Js.lit "#/view/" ++ id.

Definition urlToCopy (origin pathname id : jsstring) : jsstring :=
  origin ++ pathname ++ share_fragment id.

(** The record the store holds for a created document: the payload with
    the sentinel replaced by the store's timestamp. *)
Definition stored (d : NewDoc.t) (ts : Timestamp) : FileData.t :=
  {| FileData.displayName := NewDoc.displayName d;
     FileData.dataUrl := NewDoc.dataUrl d;
     FileData.size := NewDoc.size d;
     FileData.type := NewDoc.type d;
     FileData.createdAt := ts |}.

(** [(size / 1024).toFixed(1)] in tenths.  For an integer size below 2^53
    the quotient by 1024 is exact in a double, and [toFixed] takes the
    integer nearest to ten times that value, the larger one on a tie. *)
Definition tenths_of_kib (size : N) : N := (10 * size + 512) / 1024.

Definition toFixed1_kib (size : N) : jsstring :=
  Js.toFixed0 (tenths_of_kib size / 10) ++ Js.lit "."
  ++ Js.toFixed0 (tenths_of_kib size mod 10).

(** The size line of a row. *)
Definition size_label (size : N) : jsstring :=
  toFixed1_kib size ++ Js.lit " KB".

(** The square at the left of a row. *)
Inductive Thumbnail :=
| preview (src : jsstring)
| FileIcon.

Definition thumbnail (file : UploadedFile.t) : Thumbnail :=
  if Js.startsWith (UploadedFile.type file) (Js.lit "image/")
  then preview (UploadedFile.dataUrl file)
  else FileIcon.

(** The name of a row: the rename input or the text. *)
Inductive NameCell :=
| edit_input (value : jsstring)
| name_text (displayName : jsstring).

(** [editingFile?.id === file.id]. *)
Definition is_editing (st : State) (file : UploadedFile.t) : bool :=
  match editingFile st with
  | Some editing =>
      Js.eqb (UploadedFile.id editing) (UploadedFile.id file)
  | None => false
  end.

Definition name_cell (st : State) (file : UploadedFile.t) : NameCell :=
  if is_editing st file then edit_input (newDisplayName st)
  else name_text (UploadedFile.displayName file).

Record Row := {
  key : jsstring;
  row_thumbnail : Thumbnail;
  row_name : NameCell;
  row_size : jsstring;
  row_copy : jsstring }.

Definition row (st : State) (file : UploadedFile.t) : Row :=
  {| key := UploadedFile.id file;
     row_thumbnail := thumbnail file;
     row_name := name_cell st file;
     row_size := size_label (UploadedFile.size file);
     row_copy := copy_button_label st file |}.

(** The area under the drop zone. *)
Inductive ListArea :=
| list_spinner
| empty_message
| rows (rs : list Row).

Definition list_area (st : State) : ListArea :=
  if isLoading st then list_spinner
  else if (List.length (files st) =? 0)%nat then empty_message
  else rows (map (row st) (files st)).

(** The component once the listing of its mount effect has settled. *)
Definition mounted (env : Env) : State * Trace State :=
  run (fetchFiles env) initial.

(** The [updateDoc] requests of a trace, as (id, name). *)
Definition updated (e : Event) : list (jsstring * jsstring) :=
  match e with updateDoc i n => [(i, n)] | _ => [] end.

Definition updates (St : Type) (tr : Trace St)
    : list (jsstring * jsstring) :=
  flat_map (fun x => updated (snd x)) tr.

(** Pending timers in firing order. *)
Fixpoint sorted (q : list (Z * Callback)) : bool :=
  match q with
  | [] => true
  | entry :: rest =>
      forallb (fun later => (fst entry <=? fst later)%Z) rest && sorted rest
  end.

(** The list [handleDelete] keeps: [files.filter(f => f.id !== id)]. *)
Definition keeps_other_ids (target : UploadedFile.t)
    (fs : list UploadedFile.t) : list UploadedFile.t :=
  filter (fun f => negb (Js.eqb (UploadedFile.id f)
                                (UploadedFile.id target))) fs.

(** The reader and the create answer, the listing is rejected. *)
Definition env_reload_fails : Env :=
  {| reply_confirm := fun _ => true;
     reply_writeText := fun _ => Fulfilled tt;
     reply_fileToDataURL := fun _ => Fulfilled (Js.lit "data:");
     reply_addDoc := fun _ => Fulfilled (Js.lit "doc1");
     reply_getDocs := Rejected (Js.lit "offline");
     reply_getDoc := fun _ => Rejected (Js.lit "offline");
     reply_updateDoc := fun _ _ => Fulfilled tt;
     reply_deleteDoc := fun _ => Fulfilled tt |}.

(** The user answers no to every question. *)
Definition env_declines : Env :=
  {| reply_confirm := fun _ => false;
     reply_writeText := fun _ => Fulfilled tt;
     reply_fileToDataURL := fun _ => Fulfilled (Js.lit "data:");
     reply_addDoc := fun _ => Fulfilled (Js.lit "doc1");
     reply_getDocs := Fulfilled [];
     reply_getDoc := fun _ => Fulfilled None;
     reply_updateDoc := fun _ _ => Fulfilled tt;
     reply_deleteDoc := fun _ => Fulfilled tt |}.

(** The code units the URL parser leaves as they are in a fragment: the
    printable ASCII range without the double quote, the angle brackets and
    the back quote.  Anything else is dropped or percent-encoded. *)
Definition fragment_safe (c : N) : bool :=
  ((33 <=? c) && (c <=? 126)
   && negb ((c =? 34) || (c =? 60) || (c =? 62) || (c =? 96)))%N.

(** The text of a URL from its first hash sign on. *)
Fixpoint from_hash (url : jsstring) : jsstring :=
  match url with
  | [] => []
  | c :: rest => if (c =? 35)%N then url else from_hash rest
  end.

(** [window.location.hash] of the page opened at [url]: empty without a
    fragment or with an empty one, the fragment with its hash sign when all
    its code units are left as they are, and not modelled ([None]) when the
    parser would rewrite it. *)
Definition location_hash (url : jsstring) : option jsstring :=
  match from_hash url with
  | [] => Some []
  | [_] => Some []
  | h => if forallb fragment_safe (tl h) then Some h else None
  end.

(** The route of the page opened at [url]. *)
Definition route_of_url (url : jsstring) : option Router.Mounted :=
  match location_hash url with
  | Some h => Some (Router.App (Router.handleHashChange h))
  | None => None
  end.

End UploaderView.

(* ------------------------------------------------------------------ *)
(** ** The in-memory variant of the application *)

Module Legacy.

(** [interface UploadedFile] of the variant: the browser file and an
    object URL. *)
Record UploadedFile := {
  id : jsstring;
  file : File.t;
  displayName : jsstring;
  url : jsstring }.

Record State := {
  files : list UploadedFile;
  isDragging : bool;
  copiedUrlId : option jsstring;
  editingFile : option UploadedFile;
  newDisplayName : jsstring }.

Definition initial : State :=
  {| files := []; isDragging := false; copiedUrlId := None;
     editingFile := None; newDisplayName := [] |}.

(** What a handler does outside the component. *)
Inductive Effect :=
| alert (message : jsstring)
| createObjectURL (f : File.t)
| revokeObjectURL (url : jsstring).

Definition acceptedFileTypes : list jsstring :=
  [Js.lit "image/svg+xml"; Js.lit "image/jpeg"; Js.lit "image/png";
   Js.lit "application/pdf"].

Definition msg_invalid_format : jsstring :=
  Js.lit "Formato de archivo no v" ++ [225%N]
  ++ Js.lit "lido. Por favor sube un SVG, JPG, PNG, o PDF.".

(** The cleanup of the effect that depends on [files]: when a handler
    replaces the list, the cleanup of the previous render runs, closed
    over the list of that render. *)
Definition cleanup (previous : list UploadedFile) : list Effect :=
  map (fun f => revokeObjectURL (url f)) previous.

(** [setFiles] with a new array, and the cleanup it triggers. *)
Definition setFiles (f : list UploadedFile -> list UploadedFile)
    (st : State) : State * list Effect :=
  ({| files := f (files st); isDragging := isDragging st;
      copiedUrlId := copiedUrlId st; editingFile := editingFile st;
      newDisplayName := newDisplayName st |},
   cleanup (files st)).

Definition leave_edit (st : State) : State :=
  {| files := files st; isDragging := isDragging st;
     copiedUrlId := copiedUrlId st; editingFile := None;
     newDisplayName := [] |}.

(** [processFile]: [now] is [Date.now()], [objectUrl] what
    [URL.createObjectURL] returns. *)
Definition processFile (now : N) (objectUrl : jsstring)
    (selectedFile : option File.t) (st : State) : State * list Effect :=
  match selectedFile with
  | Some selected =>
      if Js.includes acceptedFileTypes (File.type selected) then
        let newFile :=
          {| id := File.name selected ++ Js.lit "-" ++ Js.toFixed0 now;
             file := selected;
             displayName := File.name selected;
             url := objectUrl |} in
        let '(st', fx) := setFiles (fun prevFiles => newFile :: prevFiles) st in
        (st', createObjectURL selected :: fx)
      else (st, [alert msg_invalid_format])
  | None => (st, [alert msg_invalid_format])
  end.

Definition handleDelete (fileToDelete : UploadedFile) (st : State)
    : State * list Effect :=
  let '(st', fx) :=
    setFiles (filter (fun f => negb (Js.eqb (id f) (id fileToDelete)))) st in
  (st', revokeObjectURL (url fileToDelete) :: fx).

Definition handleEdit (f : UploadedFile) (st : State) : State :=
  {| files := files st; isDragging := isDragging st;
     copiedUrlId := copiedUrlId st; editingFile := Some f;
     newDisplayName := displayName f |}.

(** [newDisplayName || f.displayName]. *)
Definition name_or (buffer current : jsstring) : jsstring :=
  if Js.truthy buffer then buffer else current.

Definition handleSaveEdit (st : State) : State * list Effect :=
  match editingFile st with
  | Some editing =>
      let '(st', fx) :=
        setFiles (map (fun f =>
                    if Js.eqb (id f) (id editing)
                    then {| id := id f; file := file f;
                            displayName :=
                              name_or (newDisplayName st) (displayName f);
                            url := url f |}
                    else f)) st in
      (leave_edit st', fx)
  | None => (st, [])
  end.

Definition handleCancelEdit (st : State) : State * list Effect :=
  (leave_edit st, []).

(** [onKeyDown] only reacts to Enter; the loss of focus cancels. *)
Definition onKeyDown (k : Uploader.Key) (st : State) : State * list Effect :=
  match k with
  | Uploader.Enter => handleSaveEdit st
  | _ => (st, [])
  end.

Definition onBlur (st : State) : State * list Effect := handleCancelEdit st.

(** The object URLs revoked so far. *)
Definition revoked (fx : list Effect) : list jsstring :=
  flat_map (fun e => match e with revokeObjectURL u => [u] | _ => [] end) fx.

(** Two listed records, the first in edit mode with a blank buffer. *)
Definition sample_record (name url : string) : UploadedFile :=
  {| id := Js.lit name ++ Js.lit "-1700000000000";
     file := {| File.name := Js.lit name; File.size := 1048576;
                File.type := Js.lit "image/png" |};
     displayName := Js.lit name;
     url := Js.lit url |}.

Definition sample_state : State :=
  {| files := [sample_record "b.png" "blob:2"; sample_record "a.png" "blob:1"];
     isDragging := false; copiedUrlId := None;
     editingFile := Some (sample_record "b.png" "blob:2");
     newDisplayName := Js.lit " " |}.

End Legacy.

(* ------------------------------------------------------------------ *)
(** * Properties *)

Unset Implicit Arguments.

(** ** Strings *)

Lemma eqb_eq (a b : jsstring) : Js.eqb a b = true <-> a = b.
Proof.
  revert b; induction a as [|x a IH]; intros [|y b]; simpl;
    try (split; [discriminate | congruence]); try tauto.
  rewrite andb_true_iff, N.eqb_eq, IH.
  split; [intros [-> ->]; reflexivity | intros E; inversion E; auto].
Qed.

Lemma eqb_refl (a : jsstring) : Js.eqb a a = true.
Proof. apply eqb_eq; reflexivity. Qed.

Lemma eqb_neq (a b : jsstring) : Js.eqb a b = false <-> a <> b.
Proof.
  rewrite <- eqb_eq. destruct (Js.eqb a b); split; congruence.
Qed.

Lemma truthy_nonempty (s : jsstring) : Js.truthy s = true <-> s <> [].
Proof. destruct s; simpl; split; congruence. Qed.

Lemma includes_In (arr : list jsstring) (s : jsstring) :
  Js.includes arr s = true <-> In s arr.
Proof.
  unfold Js.includes. rewrite existsb_exists. split.
  - intros (a & Ha & E). apply eqb_eq in E. subst. exact Ha.
  - intros H. exists s. split; [exact H | apply eqb_refl].
Qed.

Lemma includes_not_In (arr : list jsstring) (s : jsstring) :
  Js.includes arr s = false <-> ~ In s arr.
Proof.
  rewrite <- includes_In. destruct (Js.includes arr s); split; congruence.
Qed.

(** No segment of [split] holds the separator. *)
Lemma split_no_sep (sep : N) (s : jsstring) :
  Forall (fun seg => ~ In sep seg) (Js.split sep s).
Proof.
  induction s as [|c rest IH]; simpl.
  - constructor; [intros [] | constructor].
  - destruct (N.eqb_spec c sep) as [->|Hne].
    + constructor; [intros [] | exact IH].
    + destruct (Js.split sep rest) as [|seg segs].
      * constructor; [|constructor]. intros [E|[]]. congruence.
      * inversion IH as [|? ? Hseg Hsegs]; subst.
        constructor; [|exact Hsegs].
        intros [E|Hin]; [congruence | exact (Hseg Hin)].
Qed.

(** Joining the segments of [split] gives the string back. *)
Lemma split_nonempty (sep : N) (s : jsstring) : Js.split sep s <> [].
Proof.
  destruct s as [|c rest]; simpl; [discriminate|].
  destruct (c =? sep)%N; [discriminate|].
  destruct (Js.split sep rest); discriminate.
Qed.

Lemma join_split (sep : N) (s : jsstring) : Js.join sep (Js.split sep s) = s.
Proof.
  induction s as [|c rest IH]; [reflexivity|].
  simpl Js.split. destruct (N.eqb_spec c sep) as [->|Hne].
  - pose proof (split_nonempty sep rest) as Hn.
    destruct (Js.split sep rest) as [|seg segs]; [congruence|].
    change (Js.join sep ([] :: seg :: segs))
      with (sep :: Js.join sep (seg :: segs)).
    now rewrite IH.
  - pose proof (split_nonempty sep rest) as Hn.
    destruct (Js.split sep rest) as [|seg segs]; [congruence|].
    destruct segs as [|seg' segs'].
    + simpl in *. now rewrite IH.
    + change (Js.join sep ((c :: seg) :: seg' :: segs'))
        with (c :: (seg ++ sep :: Js.join sep (seg' :: segs'))).
      change (Js.join sep (seg :: seg' :: segs'))
        with (seg ++ sep :: Js.join sep (seg' :: segs')) in IH.
      now rewrite IH.
Qed.

(** [trim] leaves nothing exactly when every code unit is white space. *)
Lemma trimStart_nil (s : jsstring) :
  Js.trimStart s = [] <-> forallb Js.is_space s = true.
Proof.
  induction s as [|c rest IH]; simpl; [tauto|].
  destruct (Js.is_space c); simpl; [exact IH|].
  split; discriminate.
Qed.

Lemma trimStart_spaces (s : jsstring) :
  forallb Js.is_space (Js.trimStart s) = true -> Js.trimStart s = [].
Proof.
  induction s as [|c rest IH]; simpl; [reflexivity|].
  destruct (Js.is_space c) eqn:E; [exact IH|].
  simpl. rewrite E. discriminate.
Qed.

Lemma forallb_rev_eq (A : Type) (f : A -> bool) (l : list A) :
  forallb f (rev l) = forallb f l.
Proof.
  induction l as [|a l IH]; [reflexivity|].
  simpl. rewrite forallb_app, IH. simpl. rewrite andb_true_r.
  apply andb_comm.
Qed.

Lemma trim_nil (s : jsstring) :
  Js.trim s = [] <-> forallb Js.is_space s = true.
Proof.
  unfold Js.trim, Js.trimEnd. split.
  - intros H. apply (f_equal (@rev N)) in H. rewrite rev_involutive in H.
    simpl in H. apply trimStart_nil in H. rewrite forallb_rev_eq in H.
    apply trimStart_spaces in H. now apply trimStart_nil.
  - intros H. apply trimStart_nil in H. rewrite H. reflexivity.
Qed.

Example split_keeps_empty_segments :
  Js.split 47 (Js.lit "a//b") = [Js.lit "a"; []; Js.lit "b"].
Proof. reflexivity. Qed.

Example split_of_empty : Js.split 47 [] = [[]].
Proof. reflexivity. Qed.

Example trim_padded_name :
  Js.trim ([160%N; 9%N] ++ Js.lit " vacation.png  " ++ [10%N; 8232%N])
  = Js.lit "vacation.png".
Proof. reflexivity. Qed.

Example trim_keeps_inner_space :
  Js.trim (Js.lit " my file ") = Js.lit "my file".
Proof. reflexivity. Qed.

Example too_large_message :
  Uploader.msg_too_large
  = Js.lit "El archivo es demasiado grande. El l" ++ [237%N]
    ++ Js.lit "mite es de 750 KB para evitar errores en la base de datos.".
Proof. reflexivity. Qed.

Example parts_skip_doubled_slashes :
  Router.parts (Js.lit "#//view//abc123/")
  = [Js.lit "view"; Js.lit "abc123"].
Proof. reflexivity. Qed.

(** ** Router *)

Lemma parts_segments (location_hash : jsstring) :
  Forall (fun seg => seg <> [] /\ ~ In 47%N seg) (Router.parts location_hash).
Proof.
  unfold Router.parts. apply Forall_forall. intros seg Hin.
  apply filter_In in Hin. destruct Hin as [Hin Ht]. split.
  - now apply truthy_nonempty.
  - pose proof (split_no_sep 47 (Js.slice1 location_hash)) as H.
    rewrite Forall_forall in H. now apply H.
Qed.

(** C5. The router state is a function of the fragment alone: with the
    fragment (the text after the hash sign) split on the slash and the empty
    segments dropped, the state is (view, segment 1) when segment 0 is
    [view] and segment 1 is present and non-empty, and (home, none)
    otherwise; the Viewer mounts with that id in the first case and the
    Uploader in the second.  A fragment [#/view/] with no id, [#/], a bare
    hash sign and no fragment all select home. *)
Theorem router_state_of_fragment (location_hash : jsstring) :
  Router.handleHashChange location_hash
    = Router.spec_state (Router.parts location_hash)
  /\ Router.App (Router.handleHashChange location_hash)
      = Router.spec_mount (Router.spec_state (Router.parts location_hash))
  /\ Forall (fun seg => seg <> [] /\ ~ In 47%N seg)
            (Router.parts location_hash)
  /\ Router.App (Router.handleHashChange (Js.lit "#/view/abc123"))
      = Router.MountFileViewer (Js.lit "abc123")
  /\ Router.App (Router.handleHashChange (Js.lit "#/view/"))
      = Router.MountUploader
  /\ Router.App (Router.handleHashChange (Js.lit "#/"))
      = Router.MountUploader
  /\ Router.App (Router.handleHashChange (Js.lit "#"))
      = Router.MountUploader
  /\ Router.App (Router.handleHashChange []) = Router.MountUploader.
Proof.
  assert (Hstate : Router.handleHashChange location_hash
                   = Router.spec_state (Router.parts location_hash)).
  { pose proof (parts_segments location_hash) as Hseg.
    unfold Router.handleHashChange.
    destruct (Router.parts location_hash) as [|s0 [|s1 rest]]; simpl.
    - reflexivity.
    - now rewrite andb_false_r.
    - inversion Hseg as [|? ? _ Htl]; subst.
      inversion Htl as [|? ? [Hs1 _] _]; subst.
      apply truthy_nonempty in Hs1 as Ht. rewrite Ht.
      apply eqb_neq in Hs1. rewrite Hs1. reflexivity. }
  split; [exact Hstate|]. split.
  - rewrite Hstate. pose proof (parts_segments location_hash) as Hseg.
    destruct (Router.parts location_hash) as [|s0 [|s1 rest]];
      try reflexivity.
    inversion Hseg as [|? ? _ Htl]; subst.
    inversion Htl as [|? ? [Hs1 _] _]; subst.
    unfold Router.spec_state.
    destruct (Js.eqb s0 (Js.lit "view") && negb (Js.eqb s1 []));
      [|reflexivity].
    unfold Router.App; simpl.
    apply truthy_nonempty in Hs1. now rewrite Hs1.
  - split; [apply parts_segments|].
    repeat split; vm_compute; reflexivity.
Qed.

(** ** Uploader: the upload pipeline *)

Ltac eff_unfold :=
  cbv [run completion bind ret throw get modify emit request await
       try_catch try_catch_finally].

(** The run of [handleUpload] on a file that passes both checks, by the
    replies of the reader and of the store. *)
Lemma handleUpload_valid (env : Env) (st : Uploader.State) (f : File.t) :
  Uploader.type_accepted f = true ->
  Uploader.size_accepted f = true ->
  let up := Uploader.updIsUploading true st in
  let ld := Uploader.updIsLoading true up in
  run (Uploader.handleUpload env (Some f)) st =
  match reply_fileToDataURL env f with
  | Rejected e =>
      (Uploader.updIsUploading false up,
       (up, fileToDataURL f) :: map (pair up) (Uploader.upload_failure_log e))
  | Fulfilled dataUrl =>
      match reply_addDoc env (Uploader.upload_payload f dataUrl) with
      | Rejected e =>
          (Uploader.updIsUploading false up,
           (up, fileToDataURL f)
             :: (up, addDoc (Uploader.upload_payload f dataUrl))
             :: map (pair up) (Uploader.upload_failure_log e))
      | Fulfilled _ =>
          match reply_getDocs env with
          | Rejected e =>
              (Uploader.updIsUploading false ld,
               (up, fileToDataURL f)
                 :: (up, addDoc (Uploader.upload_payload f dataUrl))
                 :: (ld, getDocs_by_createdAt_desc)
                 :: map (pair ld) (Uploader.upload_failure_log e))
          | Fulfilled docs =>
              (Uploader.updIsUploading false
                 (Uploader.updIsLoading false
                    (Uploader.updFiles
                       (fun _ => map UploadedFile.of_doc docs) ld)),
               [(up, fileToDataURL f);
                (up, addDoc (Uploader.upload_payload f dataUrl));
                (ld, getDocs_by_createdAt_desc)])
          end
      end
  end.
Proof.
  unfold Uploader.type_accepted, Uploader.size_accepted. intros Ht Hs.
  apply negb_true_iff in Hs.
  unfold Uploader.handleUpload, Uploader.fetchFiles. rewrite Ht, Hs. simpl.
  unfold Uploader.setIsUploading, Uploader.setIsLoading, Uploader.setFiles.
  eff_unfold. unfold Uploader.upload_payload.
  destruct (reply_fileToDataURL env f) as [dataUrl|e]; [|reflexivity].
  destruct (reply_addDoc env _) as [newId|e]; [|reflexivity].
  destruct (reply_getDocs env) as [docs|e]; reflexivity.
Qed.

(** A 200 KB image uploaded to a store that then lists it. *)
Example upload_photo_listed :
  map UploadedFile.displayName
    (Uploader.files
       (fst (run (Uploader.handleUpload
                    (env_with [(Js.lit "doc1",
                                {| FileData.displayName := Js.lit "photo.png";
                                   FileData.dataUrl := Js.lit "data:;base64,";
                                   FileData.size := 204800;
                                   FileData.type := Js.lit "image/png";
                                   FileData.createdAt :=
                                     {| seconds := 1; nanoseconds := 0 |} |})])
                    (Some (Uploader.sample_png 204800)))
                 Uploader.initial)))
  = [Js.lit "photo.png"].
Proof. reflexivity. Qed.

(** The same upload with every promise rejected: one attempt to encode,
    the error is logged and alerted, the list stays as it was. *)
Example upload_photo_offline :
  map snd (snd (run (Uploader.handleUpload env_offline
                       (Some (Uploader.sample_png 204800)))
                    Uploader.sample_editing))
  = [fileToDataURL (Uploader.sample_png 204800);
     console_error [Js.lit "Error uploading file to Firestore:";
                    Js.lit "offline"];
     alert Uploader.msg_upload_error]
  /\ fst (run (Uploader.handleUpload env_offline
                 (Some (Uploader.sample_png 204800)))
              Uploader.sample_editing)
     = Uploader.sample_editing.
Proof. split; reflexivity. Qed.

Lemma accepted_checks (f : File.t) :
  In (File.type f) Uploader.acceptedFileTypes ->
  (File.size f <= Uploader.MAX_FILE_SIZE_BYTES)%N ->
  Uploader.type_accepted f = true /\ Uploader.size_accepted f = true.
Proof.
  intros Ht Hs. split.
  - now apply includes_In.
  - unfold Uploader.size_accepted. apply negb_true_iff, N.ltb_ge. exact Hs.
Qed.

(** C1. A file whose MIME type is not one of the four accepted types, or
    whose size is above the 750 KiB ceiling, is rejected: the only thing the
    handler does is show one alert, it sends no request to the store (in
    particular no create), and the component state, the file list with it,
    is what it was.  The type is checked first: a file of an unaccepted type
    gets the format message whatever its size, and the size message is for
    accepted types only. *)
Theorem upload_rejects_invalid_file
    (env : Env) (st : Uploader.State) (f : File.t) :
  ~ In (File.type f) Uploader.acceptedFileTypes
  \/ (Uploader.MAX_FILE_SIZE_BYTES < File.size f)%N ->
  exists message,
    run (Uploader.handleUpload env (Some f)) st = (st, [(st, alert message)])
    /\ Uploader.files (fst (run (Uploader.handleUpload env (Some f)) st))
        = Uploader.files st
    /\ creates (snd (run (Uploader.handleUpload env (Some f)) st)) = []
    /\ store_requests (snd (run (Uploader.handleUpload env (Some f)) st))
        = []
    /\ (~ In (File.type f) Uploader.acceptedFileTypes ->
        message = Uploader.msg_invalid_format)
    /\ (In (File.type f) Uploader.acceptedFileTypes ->
        message = Uploader.msg_too_large).
Proof.
  intros Hbad.
  destruct (Js.includes Uploader.acceptedFileTypes (File.type f)) eqn:Ht.
  - apply includes_In in Ht as Hin.
    destruct Hbad as [Hno|Hbig]; [contradiction|].
    apply N.ltb_lt in Hbig.
    assert (Hrun : run (Uploader.handleUpload env (Some f)) st
                   = (st, [(st, alert Uploader.msg_too_large)])).
    { unfold Uploader.handleUpload. rewrite Ht, Hbig. reflexivity. }
    exists Uploader.msg_too_large. rewrite Hrun.
    repeat split; try reflexivity. intros Hno. contradiction.
  - apply includes_not_In in Ht as Hno.
    assert (Hrun : run (Uploader.handleUpload env (Some f)) st
                   = (st, [(st, alert Uploader.msg_invalid_format)])).
    { unfold Uploader.handleUpload. rewrite Ht. reflexivity. }
    exists Uploader.msg_invalid_format. rewrite Hrun.
    repeat split; try reflexivity. intros Hin. contradiction.
Qed.

Lemma upload_rejects_invalid_file_witness :
  ~ In (File.type Uploader.sample_txt) Uploader.acceptedFileTypes
  /\ exists message,
       run (Uploader.handleUpload env_online
              (Some Uploader.sample_txt)) Uploader.initial
       = (Uploader.initial, [(Uploader.initial, alert message)]).
Proof.
  assert (H : ~ In (File.type Uploader.sample_txt)
                   Uploader.acceptedFileTypes).
  { apply includes_not_In. vm_compute. reflexivity. }
  split; [exact H|].
  destruct (upload_rejects_invalid_file env_online Uploader.initial
              Uploader.sample_txt (or_introl H)) as (m & Hm & _).
  exists m. exact Hm.
Defined.

(** C2. For a file that passes validation the handler sets the in-progress
    flag (it is set in the state on screen at every later step, starting
    with the encoding of the file), and once the file is encoded asks the
    store exactly once to create a record, with the original file name as
    display name, the encoded payload, the file's size and type, and the
    server-timestamp sentinel, not a client time, as creation time.  When
    the three steps succeed the store has been asked for the create and
    then for the whole collection, the list is replaced by the records it
    returns, whatever it was before (one record per document, in the store's
    order, with the document's id and the document's fields), no alert is
    shown and the flag is cleared.  When the encoding, the create or the
    reload fails, the user gets the upload error alert, the flag is cleared
    and the list is what it was. *)
Theorem upload_sequence (env : Env) (st : Uploader.State) (f : File.t) :
  In (File.type f) Uploader.acceptedFileTypes ->
  (File.size f <= Uploader.MAX_FILE_SIZE_BYTES)%N ->
  let st' := fst (run (Uploader.handleUpload env (Some f)) st) in
  let tr := snd (run (Uploader.handleUpload env (Some f)) st) in
  (exists rest,
      tr = (Uploader.updIsUploading true st, fileToDataURL f) :: rest)
  /\ (exists shown rest,
        tr = (shown, fileToDataURL f) :: rest
        /\ Uploader.isUploading shown = true
        /\ Uploader.files shown = Uploader.files st)
  /\ Forall (fun x => Uploader.isUploading (fst x) = true) tr
  /\ Uploader.isUploading st' = false
  /\ (forall dataUrl,
        reply_fileToDataURL env f = Fulfilled dataUrl ->
        creates tr = [Uploader.upload_payload f dataUrl]
        /\ exists d,
             creates tr = [d]
             /\ NewDoc.displayName d = File.name f
             /\ NewDoc.dataUrl d = dataUrl
             /\ NewDoc.size d = File.size f
             /\ NewDoc.type d = File.type f
             /\ NewDoc.createdAt d = serverTimestamp)
  /\ (forall dataUrl newId docs,
        reply_fileToDataURL env f = Fulfilled dataUrl ->
        reply_addDoc env (Uploader.upload_payload f dataUrl)
          = Fulfilled newId ->
        reply_getDocs env = Fulfilled docs ->
        Uploader.files st' = map UploadedFile.of_doc docs
        /\ map UploadedFile.id (Uploader.files st') = map fst docs
        /\ map UploadedFile.displayName (Uploader.files st')
           = map (fun doc => FileData.displayName (snd doc)) docs
        /\ map UploadedFile.dataUrl (Uploader.files st')
           = map (fun doc => FileData.dataUrl (snd doc)) docs
        /\ map UploadedFile.size (Uploader.files st')
           = map (fun doc => FileData.size (snd doc)) docs
        /\ map UploadedFile.type (Uploader.files st')
           = map (fun doc => FileData.type (snd doc)) docs
        /\ map UploadedFile.createdAt (Uploader.files st')
           = map (fun doc => FileData.createdAt (snd doc)) docs
        /\ Uploader.isLoading st' = false
        /\ alerts tr = []
        /\ store_requests tr
           = [addDoc (Uploader.upload_payload f dataUrl);
              getDocs_by_createdAt_desc])
  /\ ((exists e, reply_fileToDataURL env f = Rejected e)
      \/ (exists dataUrl e,
            reply_fileToDataURL env f = Fulfilled dataUrl
            /\ reply_addDoc env (Uploader.upload_payload f dataUrl)
               = Rejected e)
      \/ (exists e, reply_getDocs env = Rejected e) ->
      Uploader.files st' = Uploader.files st
      /\ alerts tr = [Uploader.msg_upload_error]).
Proof.
  intros Ht Hs. destruct (accepted_checks f Ht Hs) as [Hta Hsa].
  cbv zeta. rewrite (handleUpload_valid env st f Hta Hsa). cbv zeta.
  assert (Hpay : forall d,
             exists p, [Uploader.upload_payload f d] = [p]
                       /\ NewDoc.displayName p = File.name f
                       /\ NewDoc.dataUrl p = d
                       /\ NewDoc.size p = File.size f
                       /\ NewDoc.type p = File.type f
                       /\ NewDoc.createdAt p = serverTimestamp).
  { intros d. eexists. split; [reflexivity|]. repeat split. }
  destruct (reply_fileToDataURL env f) as [dataUrl|e1].
  - destruct (reply_addDoc env (Uploader.upload_payload f dataUrl))
      as [newId|e2] eqn:Hadd.
    + destruct (reply_getDocs env) as [docs|e3]; simpl;
        (split; [eexists; reflexivity|]);
        (split; [do 2 eexists; repeat split|]);
        (split; [repeat constructor|]);
        (split; [reflexivity|]);
        (split; [intros d E; inversion E; subst;
                 split; [reflexivity | apply Hpay]|]); split.
      * intros d n ds E1 _ E3. inversion E1; inversion E3; subst.
        split; [reflexivity|].
        rewrite !map_map. repeat split.
      * intros [[e E]|[(d & e & E1 & E2)|[e E]]]; try discriminate.
        inversion E1; subst. congruence.
      * intros d n ds _ _ E3. discriminate.
      * intros _. split; reflexivity.
    + simpl.
      (split; [eexists; reflexivity|]);
        (split; [do 2 eexists; repeat split|]);
        (split; [repeat constructor|]);
        (split; [reflexivity|]);
        (split; [intros d E; inversion E; subst;
                 split; [reflexivity | apply Hpay]|]); split.
      * intros d n ds E1 E2 _. inversion E1; subst. congruence.
      * intros _. split; reflexivity.
  - simpl.
    (split; [eexists; reflexivity|]);
      (split; [do 2 eexists; repeat split|]);
      (split; [repeat constructor|]);
      (split; [reflexivity|]);
      (split; [intros d E; discriminate|]); split.
    + intros d n ds E1 _ _. discriminate.
    + intros _. split; reflexivity.
Qed.

Lemma upload_sequence_witness :
  In (File.type (Uploader.sample_png 204800)) Uploader.acceptedFileTypes
  /\ (File.size (Uploader.sample_png 204800)
       <= Uploader.MAX_FILE_SIZE_BYTES)%N
  /\ map UploadedFile.id
       (Uploader.files
          (fst (run (Uploader.handleUpload
                       (env_with [(Js.lit "s1", Uploader.sample_svg_doc);
                                  (Js.lit "t1", Uploader.sample_txt_doc)])
                       (Some (Uploader.sample_png 204800)))
                    Uploader.initial)))
     = [Js.lit "s1"; Js.lit "t1"].
Proof.
  assert (H1 : In (File.type (Uploader.sample_png 204800))
                  Uploader.acceptedFileTypes).
  { apply includes_In. vm_compute. reflexivity. }
  assert (H2 : (File.size (Uploader.sample_png 204800)
                <= Uploader.MAX_FILE_SIZE_BYTES)%N).
  { vm_compute. discriminate. }
  split; [exact H1|]. split; [exact H2|].
  exact (proj1 (proj2
    (proj1 (proj2 (proj2 (proj2 (proj2 (proj2
       (upload_sequence
          (env_with [(Js.lit "s1", Uploader.sample_svg_doc);
                     (Js.lit "t1", Uploader.sample_txt_doc)])
          Uploader.initial (Uploader.sample_png 204800) H1 H2))))))
       (Js.lit "data:;base64,") (Js.lit "doc1")
       [(Js.lit "s1", Uploader.sample_svg_doc);
        (Js.lit "t1", Uploader.sample_txt_doc)]
       eq_refl eq_refl eq_refl))).
Defined.

(** C10. The size comparison is strict.  A file of an accepted type of
    exactly 750 * 1024 bytes passes validation and is uploaded: the handler
    goes on to encode it and, when the reader and the store answer, creates
    its record and reloads the list.  One byte more and the file is
    rejected with the size alert and nothing else happens. *)
Theorem size_ceiling_is_strict
    (env : Env) (st : Uploader.State) (f : File.t) :
  In (File.type f) Uploader.acceptedFileTypes ->
  (File.size f = 750 * 1024 ->
     Uploader.size_accepted f = true
     /\ (exists rest,
           snd (run (Uploader.handleUpload env (Some f)) st)
           = (Uploader.updIsUploading true st, fileToDataURL f) :: rest)
     /\ (forall dataUrl newId docs,
           reply_fileToDataURL env f = Fulfilled dataUrl ->
           reply_addDoc env (Uploader.upload_payload f dataUrl)
             = Fulfilled newId ->
           reply_getDocs env = Fulfilled docs ->
           creates (snd (run (Uploader.handleUpload env (Some f)) st))
             = [Uploader.upload_payload f dataUrl]
           /\ Uploader.files
                (fst (run (Uploader.handleUpload env (Some f)) st))
              = map UploadedFile.of_doc docs))%N
  /\ (File.size f = 750 * 1024 + 1 ->
       Uploader.size_accepted f = false
       /\ run (Uploader.handleUpload env (Some f)) st
          = (st, [(st, alert Uploader.msg_too_large)]))%N.
Proof.
  intros Ht. split.
  - intros Hsz.
    assert (Hle : (File.size f <= Uploader.MAX_FILE_SIZE_BYTES)%N).
    { rewrite Hsz. vm_compute. discriminate. }
    destruct (accepted_checks f Ht Hle) as [Hta Hsa].
    split; [exact Hsa|].
    rewrite (handleUpload_valid env st f Hta Hsa). cbv zeta. split.
    + destruct (reply_fileToDataURL env f) as [d|e1];
        [destruct (reply_addDoc env (Uploader.upload_payload f d))
           as [n|e2];
         [destruct (reply_getDocs env) as [ds|e3]|]|];
        eexists; reflexivity.
    + intros d n ds E1 E2 E3. rewrite E1, E2, E3. split; reflexivity.
  - intros Hsz.
    assert (Hgt : (Uploader.MAX_FILE_SIZE_BYTES <? File.size f)%N = true).
    { rewrite Hsz. vm_compute. reflexivity. }
    split.
    + unfold Uploader.size_accepted. now rewrite Hgt.
    + apply includes_In in Ht.
      unfold Uploader.handleUpload. rewrite Ht, Hgt. reflexivity.
Qed.

Lemma size_ceiling_is_strict_witness :
  In (File.type (Uploader.sample_png 768000)) Uploader.acceptedFileTypes
  /\ Uploader.size_accepted (Uploader.sample_png 768000) = true.
Proof.
  assert (H1 : In (File.type (Uploader.sample_png 768000))
                  Uploader.acceptedFileTypes).
  { apply includes_In. vm_compute. reflexivity. }
  split; [exact H1|].
  exact (proj1 (proj1 (size_ceiling_is_strict env_online
                         Uploader.initial (Uploader.sample_png 768000) H1)
                      eq_refl)).
Defined.

(** ** Uploader: rename *)

Lemma rename_pointwise (i n : jsstring) (fs : list UploadedFile.t) :
  Forall2 (fun old new =>
             UploadedFile.id new = UploadedFile.id old
             /\ (UploadedFile.id old = i ->
                 new = UploadedFile.with_displayName old n)
             /\ (UploadedFile.id old <> i -> new = old))
          fs (Uploader.rename i n fs).
Proof.
  induction fs as [|f fs IH]; simpl; [constructor|].
  constructor; [|exact IH].
  destruct (Js.eqb (UploadedFile.id f) i) eqn:E.
  - apply eqb_eq in E. split; [reflexivity|]. split; [reflexivity|].
    intros Hne. contradiction.
  - apply eqb_neq in E. split; [reflexivity|]. split; [|reflexivity].
    intros He. contradiction.
Qed.

Lemma run_then_skip (St : Type) (m : Eff St unit) (st : St) :
  run (bind m (fun _ => ret tt)) st = run m st.
Proof.
  unfold run, bind, ret. destruct (m st) as [[[u|e] st'] tr]; simpl.
  - now rewrite app_nil_r.
  - reflexivity.
Qed.

(** C6. A rename commit is what Enter and the loss of focus both run.  With
    a buffer that is empty after trimming it does nothing: no request goes
    to the store and the state, the list with it, is what it was.  With a
    buffer that is not, the one store request is the update of the edited
    record with the trimmed name, and afterwards no record is in edit mode
    and the buffer is empty.  When the update succeeds every listed record
    with that id carries the trimmed name, its other fields unchanged, every
    other record is untouched, and no alert is shown; when it fails the user
    gets the rename error alert and the list is what it was. *)
Theorem rename_commit (env : Env) (st : Uploader.State) :
  run (Uploader.onKeyDown env Uploader.Enter) st
    = run (Uploader.handleSaveEdit env) st
  /\ run (Uploader.onBlur env) st = run (Uploader.handleSaveEdit env) st
  /\ (Js.trim (Uploader.newDisplayName st) = [] ->
      run (Uploader.handleSaveEdit env) st = (st, []))
  /\ (forall editing,
        Uploader.editingFile st = Some editing ->
        Js.trim (Uploader.newDisplayName st) <> [] ->
        let i := UploadedFile.id editing in
        let n := Js.trim (Uploader.newDisplayName st) in
        let st' := fst (run (Uploader.handleSaveEdit env) st) in
        let tr := snd (run (Uploader.handleSaveEdit env) st) in
        store_requests tr = [updateDoc i n]
        /\ Uploader.editingFile st' = None
        /\ Uploader.newDisplayName st' = []
        /\ match reply_updateDoc env i n with
           | Fulfilled _ =>
               run (Uploader.handleSaveEdit env) st
               = (Uploader.updNewDisplayName []
                    (Uploader.updEditingFile None
                       (Uploader.updFiles (Uploader.rename i n) st)),
                  [(st, updateDoc i n)])
               /\ Forall2
                    (fun old new =>
                       UploadedFile.id new = UploadedFile.id old
                       /\ UploadedFile.dataUrl new = UploadedFile.dataUrl old
                       /\ UploadedFile.size new = UploadedFile.size old
                       /\ UploadedFile.type new = UploadedFile.type old
                       /\ UploadedFile.createdAt new
                          = UploadedFile.createdAt old
                       /\ (UploadedFile.id old = i ->
                           UploadedFile.displayName new = n)
                       /\ (UploadedFile.id old <> i -> new = old))
                    (Uploader.files st) (Uploader.files st')
               /\ alerts tr = []
           | Rejected e =>
               run (Uploader.handleSaveEdit env) st
               = (Uploader.updNewDisplayName []
                    (Uploader.updEditingFile None st),
                  [(st, updateDoc i n);
                   (st, console_error
                          [Js.lit "Error updating file name:"; e]);
                   (st, alert Uploader.msg_rename_error)])
               /\ Uploader.files st' = Uploader.files st
               /\ alerts tr = [Uploader.msg_rename_error]
           end).
Proof.
  split; [|split; [|split]].
  - unfold Uploader.onKeyDown.
    change (run (bind (Uploader.handleSaveEdit env)
                      (fun _ => ret tt)) st
            = run (Uploader.handleSaveEdit env) st).
    apply run_then_skip.
  - reflexivity.
  - intros Hempty. unfold Uploader.handleSaveEdit. eff_unfold.
    rewrite Hempty. simpl. destruct (Uploader.editingFile st); reflexivity.
  - intros editing Hed Hne. cbv zeta.
    apply eqb_neq in Hne as Hb.
    unfold Uploader.handleSaveEdit, Uploader.setFiles,
      Uploader.setEditingFile, Uploader.setNewDisplayName.
    eff_unfold. rewrite Hed, Hb. simpl.
    destruct (reply_updateDoc env (UploadedFile.id editing)
                (Js.trim (Uploader.newDisplayName st))) as [u|e]; simpl.
    + split; [reflexivity|]. split; [reflexivity|].
      split; [reflexivity|]. split; [reflexivity|].
      split; [|reflexivity].
      generalize (rename_pointwise (UploadedFile.id editing)
                    (Js.trim (Uploader.newDisplayName st))
                    (Uploader.files st)).
      apply Forall2_impl. intros old new (Hid & Hsame & Hother).
      split; [exact Hid|].
      destruct (Js.eqb (UploadedFile.id old) (UploadedFile.id editing))
        eqn:E.
      * apply eqb_eq in E. rewrite (Hsame E). simpl.
        repeat split; try reflexivity. intros Hn. contradiction.
      * apply eqb_neq in E. rewrite (Hother E).
        repeat split; try reflexivity. intros Hn. contradiction.
    + repeat split.
Qed.

Lemma rename_commit_witness :
  Js.trim (Uploader.newDisplayName Uploader.sample_editing) <> []
  /\ Uploader.editingFile
       (fst (run (Uploader.handleSaveEdit env_online)
                 Uploader.sample_editing)) = None
  /\ map UploadedFile.displayName
       (Uploader.files
          (fst (run (Uploader.handleSaveEdit env_online)
                    Uploader.sample_editing)))
     = [Js.lit "vacation.png"; Js.lit "scan.png"].
Proof.
  assert (H : Js.trim (Uploader.newDisplayName Uploader.sample_editing)
              <> []).
  { apply eqb_neq. vm_compute. reflexivity. }
  split; [exact H|].
  pose proof (proj2 (proj2 (proj2
    (rename_commit env_online Uploader.sample_editing)))
    (Uploader.sample_record "a1" "photo.png") eq_refl H) as R.
  cbv zeta in R. destruct R as (_ & Hexit & _ & R).
  split; [exact Hexit|].
  change (reply_updateDoc env_online _ _) with (@Fulfilled unit tt) in R.
  destruct R as [R _]. rewrite R. vm_compute. reflexivity.
Defined.

(** ** Uploader: delete *)

Lemma filter_other_ids (i : jsstring) (fs : list UploadedFile.t) :
  ~ In i (map UploadedFile.id fs) ->
  filter (fun f => negb (Js.eqb (UploadedFile.id f) i)) fs = fs.
Proof.
  induction fs as [|f fs IH]; simpl; intros Hno; [reflexivity|].
  destruct (Js.eqb (UploadedFile.id f) i) eqn:E.
  - apply eqb_eq in E. exfalso. apply Hno. now left.
  - simpl. rewrite IH; [reflexivity|]. intros Hin. apply Hno. now right.
Qed.

(** With unique ids, filtering on the target's id takes out the target and
    nothing else. *)
Lemma filter_removes_target (target : UploadedFile.t)
    (fs : list UploadedFile.t) :
  In target fs ->
  NoDup (map UploadedFile.id fs) ->
  exists before after,
    fs = before ++ target :: after
    /\ filter (fun f => negb (Js.eqb (UploadedFile.id f)
                                     (UploadedFile.id target))) fs
       = before ++ after
    /\ ~ In (UploadedFile.id target) (map UploadedFile.id (before ++ after)).
Proof.
  induction fs as [|f fs IH]; simpl; intros Hin Hnd; [contradiction|].
  inversion Hnd as [|? ? Hf Hrest]; subst.
  destruct Hin as [->|Hin].
  - exists [], fs. rewrite eqb_refl. simpl.
    rewrite (filter_other_ids _ fs Hf). auto.
  - assert (Hne : UploadedFile.id f <> UploadedFile.id target).
    { intros E. apply Hf. rewrite E. now apply in_map. }
    apply eqb_neq in Hne as Hb. rewrite Hb. simpl.
    destruct (IH Hin Hrest) as (before & after & E1 & E2 & E3).
    exists (f :: before), after. simpl. rewrite <- E1, E2.
    repeat split. intros [E|H]; [contradiction | exact (E3 H)].
Qed.

(** C7. A confirmed delete of a listed record (ids in the list are unique)
    asks the store to delete that id.  When the store delete succeeds the
    list loses exactly the targeted record: the records before it and after
    it stay, in their order and unchanged, the target is no longer listed,
    and the flags, the copied indicator and the edit state are what they
    were.  When it fails the user gets the delete error alert and the
    state, the list with it, is what it was. *)
Theorem delete_removes_exactly_target
    (env : Env) (st : Uploader.State) (target : UploadedFile.t) :
  reply_confirm env
    (Uploader.msg_confirm_delete (UploadedFile.displayName target)) = true ->
  In target (Uploader.files st) ->
  NoDup (map UploadedFile.id (Uploader.files st)) ->
  let question :=
      Uploader.msg_confirm_delete (UploadedFile.displayName target) in
  let st' := fst (run (Uploader.handleDelete env target) st) in
  let tr := snd (run (Uploader.handleDelete env target) st) in
  match reply_deleteDoc env (UploadedFile.id target) with
  | Fulfilled _ =>
      (exists before after,
         Uploader.files st = before ++ target :: after
         /\ Uploader.files st' = before ++ after
         /\ run (Uploader.handleDelete env target) st
            = (Uploader.updFiles (fun _ => before ++ after) st,
               [(st, window_confirm question);
                (st, deleteDoc (UploadedFile.id target))])
         /\ ~ In target (before ++ after))
      /\ ~ In target (Uploader.files st')
      /\ (forall f, In f (Uploader.files st) -> f <> target ->
                    In f (Uploader.files st'))
      /\ List.length (Uploader.files st)
         = S (List.length (Uploader.files st'))
      /\ Uploader.isDragging st' = Uploader.isDragging st
      /\ Uploader.isUploading st' = Uploader.isUploading st
      /\ Uploader.isLoading st' = Uploader.isLoading st
      /\ Uploader.copiedUrlId st' = Uploader.copiedUrlId st
      /\ Uploader.editingFile st' = Uploader.editingFile st
      /\ Uploader.newDisplayName st' = Uploader.newDisplayName st
      /\ map snd tr
         = [window_confirm question; deleteDoc (UploadedFile.id target)]
      /\ alerts tr = []
  | Rejected e =>
      run (Uploader.handleDelete env target) st
      = (st,
         [(st, window_confirm question);
          (st, deleteDoc (UploadedFile.id target));
          (st, console_error [Js.lit "Error deleting file:"; e]);
          (st, alert Uploader.msg_delete_error)])
      /\ st' = st
      /\ Uploader.files st' = Uploader.files st
      /\ alerts tr = [Uploader.msg_delete_error]
  end.
Proof.
  intros Hyes Hin Hnd. cbv zeta.
  unfold Uploader.handleDelete, Uploader.setFiles. eff_unfold.
  rewrite Hyes. simpl.
  destruct (reply_deleteDoc env (UploadedFile.id target)) as [u|e]; simpl.
  - destruct (filter_removes_target target (Uploader.files st) Hin Hnd)
      as (before & after & E1 & E2 & E3).
    assert (Hgone : ~ In target (before ++ after)).
    { intros H. apply E3. now apply in_map. }
    split.
    { exists before, after. split; [exact E1|]. split; [exact E2|].
      split; [|exact Hgone].
      unfold Uploader.updFiles. rewrite E2. reflexivity. }
    rewrite E2. split; [exact Hgone|]. split.
    { intros f Hf Hne. rewrite E1 in Hf. apply in_app_iff in Hf.
      apply in_app_iff. destruct Hf as [Hf|[Hf|Hf]]; auto.
      exfalso. apply Hne. now symmetry. }
    split.
    { rewrite E1, !length_app. simpl. lia. }
    repeat split.
  - repeat split.
Qed.

Lemma delete_removes_exactly_target_witness :
  In (Uploader.sample_record "a1" "photo.png")
     (Uploader.files Uploader.sample_editing)
  /\ NoDup (map UploadedFile.id (Uploader.files Uploader.sample_editing))
  /\ ~ In (Uploader.sample_record "a1" "photo.png")
         (Uploader.files
            (fst (run (Uploader.handleDelete env_online
                         (Uploader.sample_record "a1" "photo.png"))
                      Uploader.sample_editing)))
  /\ List.length (Uploader.files Uploader.sample_editing)
     = S (List.length
            (Uploader.files
               (fst (run (Uploader.handleDelete env_online
                            (Uploader.sample_record "a1" "photo.png"))
                         Uploader.sample_editing)))).
Proof.
  assert (H1 : In (Uploader.sample_record "a1" "photo.png")
                  (Uploader.files Uploader.sample_editing)).
  { left. reflexivity. }
  assert (H2 : NoDup (map UploadedFile.id
                        (Uploader.files Uploader.sample_editing))).
  { repeat constructor; simpl; intuition discriminate. }
  split; [exact H1|]. split; [exact H2|].
  pose proof (delete_removes_exactly_target env_online
                Uploader.sample_editing
                (Uploader.sample_record "a1" "photo.png")
                eq_refl H1 H2) as R.
  cbv zeta in R. change (reply_deleteDoc env_online _)
    with (@Fulfilled unit tt) in R.
  destruct R as (_ & Hgone & _ & Hlen & _).
  split; [exact Hgone | exact Hlen].
Defined.

(** ** FileViewer *)

(** The component once its fetch has settled, by the reply of the store. *)
Lemma mounted_state (env : Env) (fileId : jsstring) :
  FileViewer.mounted env fileId =
  match reply_getDoc env fileId with
  | Fulfilled (Some data) =>
      ({| FileViewer.file := Some data; FileViewer.error := None;
          FileViewer.isLoading := false |},
       [(FileViewer.initial, getDoc fileId)])
  | Fulfilled None =>
      ({| FileViewer.file := None;
          FileViewer.error := Some FileViewer.msg_not_found;
          FileViewer.isLoading := false |},
       [(FileViewer.initial, getDoc fileId)])
  | Rejected e =>
      ({| FileViewer.file := None;
          FileViewer.error := Some FileViewer.msg_load_error;
          FileViewer.isLoading := false |},
       [(FileViewer.initial, getDoc fileId);
        ({| FileViewer.file := None;
            FileViewer.error := Some FileViewer.msg_load_error;
            FileViewer.isLoading := true |}, console_error [e])])
  end.
Proof.
  unfold FileViewer.mounted, FileViewer.fetchFile, FileViewer.setFile,
    FileViewer.setError, FileViewer.setIsLoading.
  eff_unfold.
  destruct (reply_getDoc env fileId) as [[data|]|e]; reflexivity.
Qed.

(** The Viewer's fetch from any state of the component. *)
Lemma fetchFile_run (env : Env) (fileId : jsstring)
    (st : FileViewer.State) :
  run (FileViewer.fetchFile env fileId) st =
  match reply_getDoc env fileId with
  | Fulfilled (Some data) =>
      ({| FileViewer.file := Some data;
          FileViewer.error := FileViewer.error st;
          FileViewer.isLoading := false |},
       [(st, getDoc fileId)])
  | Fulfilled None =>
      ({| FileViewer.file := FileViewer.file st;
          FileViewer.error := Some FileViewer.msg_not_found;
          FileViewer.isLoading := false |},
       [(st, getDoc fileId)])
  | Rejected e =>
      ({| FileViewer.file := FileViewer.file st;
          FileViewer.error := Some FileViewer.msg_load_error;
          FileViewer.isLoading := false |},
       [(st, getDoc fileId);
        ({| FileViewer.file := FileViewer.file st;
            FileViewer.error := Some FileViewer.msg_load_error;
            FileViewer.isLoading := FileViewer.isLoading st |},
         console_error [e])])
  end.
Proof.
  unfold FileViewer.fetchFile, FileViewer.setFile, FileViewer.setError,
    FileViewer.setIsLoading. eff_unfold.
  destruct (reply_getDoc env fileId) as [[data|]|e]; reflexivity.
Qed.

Lemma render_not_loading (st : FileViewer.State) :
  FileViewer.isLoading st = false ->
  FileViewer.render st <> FileViewer.spinner.
Proof.
  intros H. unfold FileViewer.render. rewrite H.
  destruct (FileViewer.error st) as [[|c m]|]; simpl; try discriminate;
    destruct (FileViewer.file st) as [f|]; try discriminate;
    destruct (Js.startsWith _ _); try discriminate;
    destruct (Js.eqb _ _); discriminate.
Qed.

(** C8. The Viewer starts in the loading state, sends the store one
    request, the fetch of its id, and whatever the reply it is no longer
    loading afterwards and shows no spinner.  A fetch that finds no record
    gives the error view with the not-found message, a fetch that throws
    gives the error view with the generic load message, the two messages
    differ, and the link of the error view is the site root, which the
    router maps to home.  A fetch that finds a record stores it and sets no
    error. *)
Theorem viewer_fetch_is_terminal (env : Env) (fileId : jsstring) :
  FileViewer.render FileViewer.initial = FileViewer.spinner
  /\ store_requests (snd (FileViewer.mounted env fileId)) = [getDoc fileId]
  /\ FileViewer.isLoading (fst (FileViewer.mounted env fileId)) = false
  /\ FileViewer.render (fst (FileViewer.mounted env fileId))
     <> FileViewer.spinner
  /\ match reply_getDoc env fileId with
     | Fulfilled (Some data) =>
         FileViewer.file (fst (FileViewer.mounted env fileId)) = Some data
         /\ FileViewer.error (fst (FileViewer.mounted env fileId)) = None
     | Fulfilled None =>
         FileViewer.render (fst (FileViewer.mounted env fileId))
         = FileViewer.error_view FileViewer.msg_not_found (Js.lit "/")
     | Rejected e =>
         FileViewer.render (fst (FileViewer.mounted env fileId))
         = FileViewer.error_view FileViewer.msg_load_error (Js.lit "/")
     end
  /\ FileViewer.msg_not_found <> FileViewer.msg_load_error
  /\ Router.App (Router.handleHashChange []) = Router.MountUploader.
Proof.
  assert (Hload : FileViewer.isLoading (fst (FileViewer.mounted env fileId))
                  = false).
  { rewrite mounted_state.
    destruct (reply_getDoc env fileId) as [[data|]|e]; reflexivity. }
  split; [reflexivity|].
  split; [|split; [exact Hload|split; [now apply render_not_loading|]]].
  - rewrite mounted_state.
    destruct (reply_getDoc env fileId) as [[data|]|e]; reflexivity.
  - split; [|split; [|reflexivity]].
    + rewrite mounted_state.
      destruct (reply_getDoc env fileId) as [[data|]|e];
        [split|..]; reflexivity.
    + apply eqb_neq. vm_compute. reflexivity.
Qed.

(** C9 as stated fails.  A Viewer whose first fetch found no record keeps
    its error message when its id changes: the image record its second
    fetch finds is not rendered by the image branch. *)
Lemma viewer_image_branch_counterexample :
  ~ (forall (env1 env2 : Env) (id1 id2 : jsstring) (data : FileData.t),
        reply_getDoc env2 id2 = Fulfilled (Some data) ->
        Js.startsWith (FileData.type data) (Js.lit "image/") = true ->
        FileViewer.render
          (fst (run (FileViewer.fetchFile env2 id2)
                    (fst (FileViewer.mounted env1 id1))))
        = FileViewer.img (FileData.dataUrl data)
                         (FileData.displayName data)).
Proof.
  intros H.
  specialize (H env_online
                (env_with [(Js.lit "s1", Uploader.sample_svg_doc)])
                (Js.lit "gone") (Js.lit "s1") Uploader.sample_svg_doc
                eq_refl eq_refl).
  vm_compute in H. discriminate.
Qed.

(** C9, amended.  A fetch, from any state of the Viewer, that finds a
    record whose type starts with [image/] stores the record, sets no error
    and ends loading.  When no error message of an earlier fetch is set, as
    on the first fetch after mount, the record is rendered by the image
    branch, with the encoded payload as the source of the image.  In no
    case is the record rendered by the PDF branch or by the fall-through.
    The vector type [image/svg+xml], which the uploader accepts, is such a
    type. *)
Theorem viewer_image_branch
    (env : Env) (fileId : jsstring) (data : FileData.t)
    (st : FileViewer.State) :
  reply_getDoc env fileId = Fulfilled (Some data) ->
  Js.startsWith (FileData.type data) (Js.lit "image/") = true ->
  let st' := fst (run (FileViewer.fetchFile env fileId) st) in
  FileViewer.file st' = Some data
  /\ FileViewer.error st' = FileViewer.error st
  /\ FileViewer.isLoading st' = false
  /\ (Js.truthy_opt (FileViewer.error st) = false ->
      FileViewer.render st'
      = FileViewer.img (FileData.dataUrl data) (FileData.displayName data))
  /\ FileViewer.render (fst (FileViewer.mounted env fileId))
     = FileViewer.img (FileData.dataUrl data) (FileData.displayName data)
  /\ (forall src title, FileViewer.render st' <> FileViewer.iframe src title)
  /\ FileViewer.render st' <> FileViewer.null
  /\ Js.startsWith (Js.lit "image/svg+xml") (Js.lit "image/") = true
  /\ In (Js.lit "image/svg+xml") Uploader.acceptedFileTypes.
Proof.
  intros Hfound Himg. cbv zeta. rewrite fetchFile_run, Hfound. simpl.
  split; [reflexivity|]. split; [reflexivity|]. split; [reflexivity|].
  split.
  { intros Hno. unfold FileViewer.render. simpl.
    rewrite Hno, Himg. reflexivity. }
  split.
  { rewrite mounted_state, Hfound. unfold FileViewer.render. simpl.
    rewrite Himg. reflexivity. }
  split.
  { intros src title. unfold FileViewer.render. simpl.
    destruct (FileViewer.error st) as [[|c m]|]; simpl;
      rewrite ?Himg; discriminate. }
  split.
  { unfold FileViewer.render. simpl.
    destruct (FileViewer.error st) as [[|c m]|]; simpl;
      rewrite ?Himg; discriminate. }
  split; [reflexivity | left; reflexivity].
Qed.

Lemma viewer_image_branch_witness :
  FileViewer.render
    (fst (run (FileViewer.fetchFile
                 (env_with [(Js.lit "s1", Uploader.sample_svg_doc)])
                 (Js.lit "s1"))
              FileViewer.initial))
  = FileViewer.img (Js.lit "data:image/svg+xml;base64,PHN2Zy8+")
                   (Js.lit "logo.svg").
Proof.
  exact (proj1 (proj2 (proj2 (proj2
           (viewer_image_branch
              (env_with [(Js.lit "s1", Uploader.sample_svg_doc)])
              (Js.lit "s1") Uploader.sample_svg_doc FileViewer.initial
              eq_refl eq_refl)))) eq_refl).
Defined.

(** C4 as stated fails: a fetched record of type [text/plain] selects
    neither branch and the Viewer shows no error view for it. *)
Lemma viewer_other_type_counterexample :
  ~ (forall (env : Env) (fileId : jsstring) (data : FileData.t),
        reply_getDoc env fileId = Fulfilled (Some data) ->
        Js.startsWith (FileData.type data) (Js.lit "image/") = false ->
        Js.eqb (FileData.type data) (Js.lit "application/pdf") = false ->
        exists message href,
          FileViewer.render (fst (FileViewer.mounted env fileId))
          = FileViewer.error_view message href).
Proof.
  intros H.
  destruct (H (env_with [(Js.lit "t1", Uploader.sample_txt_doc)])
              (Js.lit "t1") Uploader.sample_txt_doc
              eq_refl eq_refl eq_refl) as (m & h & E).
  vm_compute in E. discriminate.
Qed.

(** C4, amended.  A fetch, from any state of the Viewer, that finds a
    record whose type selects neither the image branch nor the PDF branch
    stores the record and sets no error for it.  When no error message of an
    earlier fetch is set, as on the first fetch after mount, the Viewer
    returns [null]: nothing is rendered, and no error view.  None of the
    four accepted types is such a type: each selects the image branch or
    the PDF branch. *)
Theorem viewer_other_type_renders_nothing
    (env : Env) (fileId : jsstring) (data : FileData.t)
    (st : FileViewer.State) :
  reply_getDoc env fileId = Fulfilled (Some data) ->
  Js.startsWith (FileData.type data) (Js.lit "image/") = false ->
  Js.eqb (FileData.type data) (Js.lit "application/pdf") = false ->
  let st' := fst (run (FileViewer.fetchFile env fileId) st) in
  FileViewer.file st' = Some data
  /\ FileViewer.error st' = FileViewer.error st
  /\ (Js.truthy_opt (FileViewer.error st) = false ->
      FileViewer.render st' = FileViewer.null)
  /\ FileViewer.render (fst (FileViewer.mounted env fileId))
     = FileViewer.null
  /\ (forall t, In t Uploader.acceptedFileTypes ->
        Js.startsWith t (Js.lit "image/") = true
        \/ Js.eqb t (Js.lit "application/pdf") = true).
Proof.
  intros Hfound Himg Hpdf. cbv zeta. rewrite fetchFile_run, Hfound. simpl.
  split; [reflexivity|]. split; [reflexivity|]. split.
  { intros Hno. unfold FileViewer.render. simpl.
    rewrite Hno, Himg, Hpdf. reflexivity. }
  split.
  { rewrite mounted_state, Hfound. unfold FileViewer.render. simpl.
    rewrite Himg, Hpdf. reflexivity. }
  intros t [<-|[<-|[<-|[<-|[]]]]]; vm_compute; auto.
Qed.

Lemma viewer_other_type_renders_nothing_witness :
  FileViewer.render
    (fst (run (FileViewer.fetchFile
                 (env_with [(Js.lit "t1", Uploader.sample_txt_doc)])
                 (Js.lit "t1"))
              FileViewer.initial))
  = FileViewer.null.
Proof.
  exact (proj1 (proj2 (proj2
           (viewer_other_type_renders_nothing
              (env_with [(Js.lit "t1", Uploader.sample_txt_doc)])
              (Js.lit "t1") Uploader.sample_txt_doc FileViewer.initial
              eq_refl eq_refl eq_refl))) eq_refl).
Defined.

(** ** Uploader: the copied indicator *)

Local Open Scope Z_scope.

Lemma copy_page (file : UploadedFile.t) (p : Uploader.Page) :
  Uploader.copy file p =
  {| Uploader.now := Uploader.now p;
     Uploader.ui :=
       Uploader.updCopiedUrlId (Some (UploadedFile.id file)) (Uploader.ui p);
     Uploader.timers :=
       Uploader.schedule (Uploader.now p + 2000) Uploader.clear_copied
                         (Uploader.timers p) |}.
Proof. reflexivity. Qed.

(** Scheduling never removes a pending timer. *)
Lemma schedule_keeps (due : Z) (cb : Uploader.Callback)
    (q : list (Z * Uploader.Callback)) (tm : Z * Uploader.Callback) :
  In tm q -> In tm (Uploader.schedule due cb q).
Proof.
  induction q as [|entry rest IH]; simpl; intros Hin; [contradiction|].
  destruct (due <? fst entry).
  - right. exact Hin.
  - destruct Hin as [->|Hin]; [now left | right; now apply IH].
Qed.

Lemma schedule_head_due (due : Z) (cb : Uploader.Callback)
    (q : list (Z * Uploader.Callback)) (t : Z) :
  (exists d c rest, q = (d, c) :: rest /\ d <= t) ->
  exists d c rest,
    Uploader.schedule due cb q = (d, c) :: rest /\ d <= t.
Proof.
  intros (d & c & rest & -> & Hd). simpl.
  destruct (Z.ltb_spec due d) as [Hlt|Hge].
  - exists due, cb, ((d, c) :: rest). split; [reflexivity | lia].
  - exists d, c, (Uploader.schedule due cb rest). split; [reflexivity | lia].
Qed.

(** Firing timers never brings an indicator back. *)
Lemma fire_stays_cleared (t : Z) (q : list (Z * Uploader.Callback))
    (st : Uploader.State) :
  Uploader.copiedUrlId st = None ->
  Uploader.copiedUrlId (fst (Uploader.fire t q st)) = None.
Proof.
  revert st. induction q as [|[d []] rest IH]; simpl; intros st H;
    [exact H|].
  destruct (d <=? t); [apply IH; reflexivity | exact H].
Qed.

(** A due timer at the head of the queue clears the indicator. *)
Lemma fire_head_due (t d : Z) (c : Uploader.Callback)
    (rest : list (Z * Uploader.Callback)) (st : Uploader.State) :
  d <= t ->
  Uploader.copiedUrlId (fst (Uploader.fire t ((d, c) :: rest) st)) = None.
Proof.
  intros Hd. simpl. apply Z.leb_le in Hd. rewrite Hd.
  apply fire_stays_cleared. destruct c. reflexivity.
Qed.

Lemma advance_ui (t : Z) (p : Uploader.Page) :
  Uploader.ui (Uploader.advance t p)
  = fst (Uploader.fire t (Uploader.timers p) (Uploader.ui p)).
Proof.
  unfold Uploader.advance.
  destruct (Uploader.fire t (Uploader.timers p) (Uploader.ui p)).
  reflexivity.
Qed.

(** At most one row of a list with unique ids matches an id. *)
Lemma at_most_one_match (c : jsstring) (fs : list UploadedFile.t) :
  NoDup (map UploadedFile.id fs) ->
  (List.length (filter (fun f => Js.eqb c (UploadedFile.id f)) fs) <= 1)%nat.
Proof.
  induction fs as [|f fs IH]; simpl; intros Hnd; [lia|].
  inversion Hnd as [|? ? Hf Hrest]; subst.
  destruct (Js.eqb c (UploadedFile.id f)) eqn:E; [|now apply IH].
  apply eqb_eq in E. subst c. simpl.
  assert (Hnone : filter (fun g => Js.eqb (UploadedFile.id f)
                                          (UploadedFile.id g)) fs = []).
  { clear IH Hnd Hrest. induction fs as [|g fs IH]; [reflexivity|].
    simpl. destruct (Js.eqb (UploadedFile.id f) (UploadedFile.id g)) eqn:E.
    - apply eqb_eq in E. exfalso. apply Hf. left. now symmetry.
    - apply IH. intros H. apply Hf. now right. }
  rewrite Hnone. simpl. lia.
Qed.

(** C3 as stated fails.  The first record is copied at 0 ms and the second
    at 1000 ms: the timer of the first copy is still queued after the
    second copy, and when it fires at 2000 ms it clears the indicator the
    second copy set only 1000 ms before. *)
Lemma copied_indicator_counterexample :
  map fst (Uploader.timers Uploader.sample_two_copies) = [2000; 3000]
  /\ Uploader.now Uploader.sample_two_copies = 1000
  /\ Uploader.copiedUrlId (Uploader.ui Uploader.sample_two_copies)
     = Some (Js.lit "b2")
  /\ Uploader.copiedUrlId
       (Uploader.ui (Uploader.advance 2000 Uploader.sample_two_copies))
     = None.
Proof. repeat split. Qed.

(** C3, amended.  At most one row of a list with unique ids shows the
    copied indicator, at any state of the page.  A successful copy sets the
    indicator to the copied record and queues a clear 2000 ms later; it
    cancels nothing, every timer that was pending is still pending.  With
    no other timer pending the indicator shows until 2000 ms have passed
    and is cleared from then on.  With a timer of an earlier copy pending,
    the indicator is cleared as soon as that timer is due. *)
Theorem copied_indicator_timers (p : Uploader.Page) (file : UploadedFile.t) :
  NoDup (map UploadedFile.id (Uploader.files (Uploader.ui p))) ->
  (List.length (filter (Uploader.shows_copied (Uploader.ui p))
                  (Uploader.files (Uploader.ui p))) <= 1)%nat
  /\ Uploader.copiedUrlId (Uploader.ui (Uploader.copy file p))
     = Some (UploadedFile.id file)
  /\ Uploader.timers (Uploader.copy file p)
     = Uploader.schedule (Uploader.now p + 2000) Uploader.clear_copied
                         (Uploader.timers p)
  /\ (forall tm, In tm (Uploader.timers p) ->
                 In tm (Uploader.timers (Uploader.copy file p)))
  /\ (Uploader.timers p = [] ->
      forall t,
        (t < Uploader.now p + 2000 ->
         Uploader.copiedUrlId
           (Uploader.ui (Uploader.advance t (Uploader.copy file p)))
         = Some (UploadedFile.id file))
        /\ (Uploader.now p + 2000 <= t ->
            Uploader.copiedUrlId
              (Uploader.ui (Uploader.advance t (Uploader.copy file p)))
            = None))
  /\ (forall due cb rest t,
        Uploader.timers p = (due, cb) :: rest ->
        due <= t ->
        Uploader.copiedUrlId
          (Uploader.ui (Uploader.advance t (Uploader.copy file p)))
        = None).
Proof.
  intros Hnd. split; [|split; [|split; [|split; [|split]]]].
  - unfold Uploader.shows_copied.
    destruct (Uploader.copiedUrlId (Uploader.ui p)) as [c|]; simpl.
    + now apply at_most_one_match.
    + clear Hnd. induction (Uploader.files (Uploader.ui p)); simpl; lia.
  - reflexivity.
  - reflexivity.
  - intros tm Hin. rewrite copy_page. simpl. now apply schedule_keeps.
  - intros Hq t. rewrite advance_ui, copy_page. simpl. rewrite Hq. simpl.
    split; intros Ht.
    + apply Z.leb_gt in Ht. rewrite Ht. reflexivity.
    + apply Z.leb_le in Ht. rewrite Ht. reflexivity.
  - intros due cb rest t Hq Hdue. rewrite advance_ui, copy_page. simpl.
    destruct (schedule_head_due (Uploader.now p + 2000)
                Uploader.clear_copied (Uploader.timers p) t)
      as (d & c & rest' & E & Hd).
    { exists due, cb, rest. split; assumption. }
    rewrite E. now apply fire_head_due.
Qed.

Lemma copied_indicator_timers_witness :
  NoDup (map UploadedFile.id
           (Uploader.files (Uploader.ui Uploader.sample_page)))
  /\ Uploader.copiedUrlId
       (Uploader.ui
          (Uploader.advance 2000
             (Uploader.copy (Uploader.sample_record "a1" "photo.png")
                            Uploader.sample_page)))
     = None.
Proof.
  assert (H : NoDup (map UploadedFile.id
                       (Uploader.files (Uploader.ui Uploader.sample_page)))).
  { repeat constructor; simpl; intuition discriminate. }
  split; [exact H|].
  refine (proj2 (proj1 (proj2 (proj2 (proj2 (proj2
    (copied_indicator_timers Uploader.sample_page
       (Uploader.sample_record "a1" "photo.png") H)))))
    eq_refl 2000) _).
  vm_compute. discriminate.
Defined.

(* ------------------------------------------------------------------ *)
(** * Further properties of the handlers *)

Local Close Scope Z_scope.

Ltac handlers_unfold :=
  unfold Uploader.handleDrop, Uploader.handleFileSelect,
    Uploader.onKeyDown, Uploader.onBlur,
    Uploader.handleUpload, Uploader.fetchFiles, Uploader.handleDelete,
    Uploader.handleSaveEdit, Uploader.handleCancelEdit,
    Uploader.handleEdit, Uploader.setFiles, Uploader.setIsDragging,
    Uploader.setIsUploading, Uploader.setIsLoading,
    Uploader.setEditingFile, Uploader.setNewDisplayName;
  eff_unfold.

Lemma handleUpload_normal (env : Env) (st : Uploader.State)
    (selectedFile : option File.t) :
  completion (Uploader.handleUpload env selectedFile) st = Normal tt.
Proof.
  handlers_unfold. destruct selectedFile as [f|]; [|reflexivity].
  destruct (Js.includes Uploader.acceptedFileTypes (File.type f));
    [|reflexivity].
  destruct (Uploader.MAX_FILE_SIZE_BYTES <? File.size f)%N; [reflexivity|].
  simpl.
  destruct (reply_fileToDataURL env f) as [d|e1]; [|reflexivity].
  destruct (reply_addDoc env _) as [n|e2]; [|reflexivity].
  destruct (reply_getDocs env) as [ds|e3]; reflexivity.
Qed.

Lemma handleSaveEdit_normal (env : Env) (st : Uploader.State) :
  completion (Uploader.handleSaveEdit env) st = Normal tt.
Proof.
  handlers_unfold. destruct (Uploader.editingFile st) as [ed|];
    [|reflexivity].
  destruct (Js.eqb (Js.trim (Uploader.newDisplayName st)) []);
    [reflexivity|]. simpl.
  destruct (reply_updateDoc env _ _); reflexivity.
Qed.

(** X1. No handler of the two components lets a rejection escape: the
    upload, drop, file-select, delete, rename-commit and key handlers of the
    Uploader and the fetch of the Viewer complete normally whatever the
    reader, the store and the user answer. *)
Theorem handlers_never_throw (env : Env) (st : Uploader.State) :
  (forall selectedFile,
      completion (Uploader.handleUpload env selectedFile) st = Normal tt)
  /\ (forall dropped,
        completion (Uploader.handleDrop env dropped) st = Normal tt)
  /\ (forall chosen,
        completion (Uploader.handleFileSelect env chosen) st = Normal tt)
  /\ (forall target,
        completion (Uploader.handleDelete env target) st = Normal tt)
  /\ completion (Uploader.handleSaveEdit env) st = Normal tt
  /\ (forall k, completion (Uploader.onKeyDown env k) st = Normal tt)
  /\ (forall fileId vst,
        completion (FileViewer.fetchFile env fileId) vst = Normal tt).
Proof.
  split; [intros f; apply handleUpload_normal|].
  split.
  { intros [|f rest]; [reflexivity|].
    pose proof (handleUpload_normal env (Uploader.updIsDragging false st)
                  (Some f)) as H.
    unfold completion in *. unfold Uploader.handleDrop,
      Uploader.setIsDragging. unfold bind at 1. unfold modify.
    destruct (Uploader.handleUpload env (Some f)
                (Uploader.updIsDragging false st)) as [[c s'] tr].
    exact H. }
  split.
  { intros [|f rest]; [reflexivity|]. apply handleUpload_normal. }
  split.
  { intros target. handlers_unfold.
    destruct (reply_confirm env _); [|reflexivity]. simpl.
    destruct (reply_deleteDoc env _); reflexivity. }
  split; [apply handleSaveEdit_normal|].
  split.
  { intros k. pose proof (handleSaveEdit_normal env st) as H.
    unfold completion in *. unfold Uploader.onKeyDown.
    destruct k.
    - unfold bind at 1.
      destruct (Uploader.handleSaveEdit env st) as [[c s'] tr].
      subst c. reflexivity.
    - reflexivity.
    - reflexivity. }
  intros fileId vst.
  unfold FileViewer.fetchFile, FileViewer.setFile, FileViewer.setError,
    FileViewer.setIsLoading. eff_unfold.
  destruct (reply_getDoc env fileId) as [[d|]|e]; reflexivity.
Qed.

(** X2. The listing the Uploader runs on mount and after an upload, from
    any state.  When the store answers, the list becomes the store's
    documents in the store's order, each with its document id, the loading
    flag is cleared and the area under the drop zone shows the empty-state
    message for no document and one row per document otherwise.  When the
    request is rejected [fetchFiles] throws, shows no alert, leaves the
    list as it was and the loading flag set: the area stays on the
    spinner. *)
Theorem fetchFiles_outcome (env : Env) (st : Uploader.State) :
  match reply_getDocs env with
  | Fulfilled docs =>
      completion (Uploader.fetchFiles env) st = Normal tt
      /\ map snd (snd (run (Uploader.fetchFiles env) st))
         = [getDocs_by_createdAt_desc]
      /\ Uploader.files (fst (run (Uploader.fetchFiles env) st))
         = map UploadedFile.of_doc docs
      /\ map UploadedFile.id
             (Uploader.files (fst (run (Uploader.fetchFiles env) st)))
         = map fst docs
      /\ Uploader.isLoading (fst (run (Uploader.fetchFiles env) st)) = false
      /\ UploaderView.list_area (fst (run (Uploader.fetchFiles env) st))
         = match docs with
           | [] => UploaderView.empty_message
           | _ :: _ =>
               UploaderView.rows
                 (map (UploaderView.row
                         (fst (run (Uploader.fetchFiles env) st)))
                      (map UploadedFile.of_doc docs))
           end
  | Rejected e =>
      completion (Uploader.fetchFiles env) st = Throw e
      /\ map snd (snd (run (Uploader.fetchFiles env) st))
         = [getDocs_by_createdAt_desc]
      /\ fst (run (Uploader.fetchFiles env) st)
         = Uploader.updIsLoading true st
      /\ UploaderView.list_area (fst (run (Uploader.fetchFiles env) st))
         = UploaderView.list_spinner
  end.
Proof.
  handlers_unfold. destruct (reply_getDocs env) as [docs|e]; simpl.
  - repeat split.
    + rewrite map_map. reflexivity.
    + destruct docs; reflexivity.
  - repeat split.
Qed.

(** X3. An upload whose create succeeds and whose reload is rejected: the
    store has been asked to create the record, yet the user is shown the
    upload error, the list is the old one, the in-progress flag is cleared
    and the loading flag is left set, so the list area shows the spinner
    from then on. *)
Theorem upload_reload_failure
    (env : Env) (st : Uploader.State) (f : File.t)
    (dataUrl newId reason : jsstring) :
  In (File.type f) Uploader.acceptedFileTypes ->
  (File.size f <= Uploader.MAX_FILE_SIZE_BYTES)%N ->
  reply_fileToDataURL env f = Fulfilled dataUrl ->
  reply_addDoc env (Uploader.upload_payload f dataUrl) = Fulfilled newId ->
  reply_getDocs env = Rejected reason ->
  let st' := fst (run (Uploader.handleUpload env (Some f)) st) in
  let tr := snd (run (Uploader.handleUpload env (Some f)) st) in
  creates tr = [Uploader.upload_payload f dataUrl]
  /\ alerts tr = [Uploader.msg_upload_error]
  /\ Uploader.files st' = Uploader.files st
  /\ Uploader.isUploading st' = false
  /\ Uploader.isLoading st' = true
  /\ UploaderView.list_area st' = UploaderView.list_spinner.
Proof.
  intros Ht Hs E1 E2 E3. destruct (accepted_checks f Ht Hs) as [Hta Hsa].
  cbv zeta. rewrite (handleUpload_valid env st f Hta Hsa). cbv zeta.
  rewrite E1, E2, E3. simpl. repeat split.
Qed.

Lemma upload_reload_failure_witness :
  Uploader.isLoading
    (fst (run (Uploader.handleUpload UploaderView.env_reload_fails
                 (Some (Uploader.sample_png 204800)))
              (Uploader.updIsLoading false Uploader.initial))) = true.
Proof.
  refine (proj1 (proj2 (proj2 (proj2 (proj2
    (upload_reload_failure UploaderView.env_reload_fails
       (Uploader.updIsLoading false Uploader.initial)
       (Uploader.sample_png 204800) (Js.lit "data:") (Js.lit "doc1")
       (Js.lit "offline") _ _ eq_refl eq_refl eq_refl)))))).
  - apply includes_In. vm_compute. reflexivity.
  - vm_compute. discriminate.
Defined.

Lemma run_handleDrop (env : Env) (st : Uploader.State) (f : File.t)
    (rest : list File.t) :
  run (Uploader.handleDrop env (f :: rest)) st
  = run (Uploader.handleUpload env (Some f))
        (Uploader.updIsDragging false st).
Proof.
  unfold run, Uploader.handleDrop, Uploader.setIsDragging, bind, modify.
  destruct (Uploader.handleUpload env (Some f)
              (Uploader.updIsDragging false st)) as [[c s'] tr].
  reflexivity.
Qed.

(** X4. The drop zone does not look at the in-progress flag.  While an
    upload is in progress the click handler opens no file picker and the
    input is disabled, but a drop is handled like any other: the first
    dropped file, and only that one, is validated, encoded and, once
    encoded, created in the store, and when this run ends it clears the
    in-progress flag. *)
Theorem drop_ignores_upload_in_progress
    (env : Env) (st : Uploader.State) (f : File.t) (rest : list File.t) :
  In (File.type f) Uploader.acceptedFileTypes ->
  (File.size f <= Uploader.MAX_FILE_SIZE_BYTES)%N ->
  Uploader.isUploading st = true ->
  UploaderView.triggerFileSelect st = false
  /\ UploaderView.input_disabled st = true
  /\ (exists later,
        map snd (snd (run (Uploader.handleDrop env (f :: rest)) st))
        = fileToDataURL f :: later)
  /\ (forall dataUrl,
        reply_fileToDataURL env f = Fulfilled dataUrl ->
        creates (snd (run (Uploader.handleDrop env (f :: rest)) st))
        = [Uploader.upload_payload f dataUrl])
  /\ Uploader.isUploading
       (fst (run (Uploader.handleDrop env (f :: rest)) st)) = false
  /\ run (Uploader.handleDrop env (f :: rest)) st
     = run (Uploader.handleDrop env [f]) st.
Proof.
  intros Ht Hs Hup. destruct (accepted_checks f Ht Hs) as [Hta Hsa].
  split; [unfold UploaderView.triggerFileSelect; now rewrite Hup|].
  split; [exact Hup|].
  rewrite !run_handleDrop.
  rewrite (handleUpload_valid env _ f Hta Hsa). cbv zeta.
  destruct (reply_fileToDataURL env f) as [d|e1].
  - destruct (reply_addDoc env (Uploader.upload_payload f d)) as [n|e2].
    + destruct (reply_getDocs env) as [ds|e3]; simpl;
        (split; [eexists; reflexivity|]);
        (split; [intros d' E; inversion E; reflexivity|]);
        split; reflexivity.
    + simpl. (split; [eexists; reflexivity|]);
        (split; [intros d' E; inversion E; reflexivity|]);
        split; reflexivity.
  - simpl. (split; [eexists; reflexivity|]);
      (split; [intros d' E; discriminate|]);
      split; reflexivity.
Qed.

Lemma drop_ignores_upload_in_progress_witness :
  Uploader.isUploading
    (fst (run (Uploader.handleDrop env_online
                 [Uploader.sample_png 204800; Uploader.sample_txt])
              (Uploader.updIsUploading true Uploader.initial))) = false.
Proof.
  refine (proj1 (proj2 (proj2 (proj2 (proj2
    (drop_ignores_upload_in_progress env_online
       (Uploader.updIsUploading true Uploader.initial)
       (Uploader.sample_png 204800) [Uploader.sample_txt]
       _ _ eq_refl)))))).
  - apply includes_In. vm_compute. reflexivity.
  - vm_compute. discriminate.
Defined.

(** *** Delete *)

Lemma handleDelete_run (env : Env) (st : Uploader.State)
    (target : UploadedFile.t) :
  let q := Uploader.msg_confirm_delete (UploadedFile.displayName target) in
  run (Uploader.handleDelete env target) st =
  if reply_confirm env q then
    match reply_deleteDoc env (UploadedFile.id target) with
    | Fulfilled _ =>
        (Uploader.updFiles (UploaderView.keeps_other_ids target) st,
         [(st, window_confirm q);
          (st, deleteDoc (UploadedFile.id target))])
    | Rejected e =>
        (st,
         [(st, window_confirm q);
          (st, deleteDoc (UploadedFile.id target));
          (st, console_error [Js.lit "Error deleting file:"; e]);
          (st, alert Uploader.msg_delete_error)])
    end
  else (st, [(st, window_confirm q)]).
Proof.
  cbv zeta. handlers_unfold.
  destruct (reply_confirm env _); [|reflexivity]. simpl.
  destruct (reply_deleteDoc env _); reflexivity.
Qed.

Lemma keeps_other_ids_NoDup (target : UploadedFile.t)
    (fs : list UploadedFile.t) :
  NoDup (map UploadedFile.id fs) ->
  NoDup (map UploadedFile.id (UploaderView.keeps_other_ids target fs)).
Proof.
  unfold UploaderView.keeps_other_ids.
  induction fs as [|f fs IH]; simpl; intros Hnd; [constructor|].
  inversion Hnd as [|? ? Hf Hrest]; subst.
  destruct (negb (Js.eqb (UploadedFile.id f) (UploadedFile.id target)));
    [|now apply IH].
  simpl. constructor; [|now apply IH].
  intros Hin. apply Hf. apply in_map_iff in Hin.
  destruct Hin as (g & Hg & Hin). apply filter_In in Hin.
  apply in_map_iff. exists g. tauto.
Qed.

(** X5. What a click on a row's delete button can do, for any answer of
    the user and of the store.  Without the user's confirmation nothing is
    sent to the store and the state is untouched.  With it the only store
    request is the delete of the row's id.  The list never gains a record;
    after a successful delete it holds exactly the records with another id,
    in their order, so a row whose id is no longer listed leaves the list as
    it is, and unique ids stay unique. *)
Theorem delete_outcomes
    (env : Env) (st : Uploader.State) (target : UploadedFile.t) :
  let q := Uploader.msg_confirm_delete (UploadedFile.displayName target) in
  let st' := fst (run (Uploader.handleDelete env target) st) in
  let tr := snd (run (Uploader.handleDelete env target) st) in
  (reply_confirm env q = false ->
     st' = st /\ map snd tr = [window_confirm q] /\ store_requests tr = [])
  /\ (reply_confirm env q = true ->
      store_requests tr = [deleteDoc (UploadedFile.id target)])
  /\ (forall f, In f (Uploader.files st') -> In f (Uploader.files st))
  /\ (reply_confirm env q = true ->
      forall u, reply_deleteDoc env (UploadedFile.id target) = Fulfilled u ->
      Uploader.files st'
      = UploaderView.keeps_other_ids target (Uploader.files st)
      /\ (forall f, In f (Uploader.files st') <->
                    In f (Uploader.files st)
                    /\ UploadedFile.id f <> UploadedFile.id target)
      /\ (~ In (UploadedFile.id target)
               (map UploadedFile.id (Uploader.files st)) ->
          Uploader.files st' = Uploader.files st))
  /\ (NoDup (map UploadedFile.id (Uploader.files st)) ->
      NoDup (map UploadedFile.id (Uploader.files st'))).
Proof.
  cbv zeta. rewrite handleDelete_run. cbv zeta.
  destruct (reply_confirm env _) eqn:Hc.
  - destruct (reply_deleteDoc env (UploadedFile.id target)) as [u|e] eqn:Hd;
      simpl.
    + split; [discriminate|]. split; [reflexivity|]. split.
      { intros f Hin. unfold UploaderView.keeps_other_ids in Hin.
        apply filter_In in Hin. tauto. }
      split.
      { intros _ u' _. split; [reflexivity|]. split.
        - intros f. unfold UploaderView.keeps_other_ids. rewrite filter_In.
          rewrite negb_true_iff, eqb_neq. tauto.
        - intros Hno. now apply filter_other_ids. }
      apply keeps_other_ids_NoDup.
    + split; [discriminate|]. split; [reflexivity|].
      split; [tauto|]. split; [|tauto].
      intros _ u' E. discriminate.
  - simpl. split; [auto|]. split; [discriminate|].
    split; [tauto|]. split; [discriminate | tauto].
Qed.

Lemma delete_outcomes_witness :
  fst (run (Uploader.handleDelete UploaderView.env_declines
              (Uploader.sample_record "a1" "photo.png"))
           Uploader.sample_editing)
  = Uploader.sample_editing.
Proof.
  exact (proj1 (proj1 (delete_outcomes UploaderView.env_declines
                         Uploader.sample_editing
                         (Uploader.sample_record "a1" "photo.png"))
                      eq_refl)).
Defined.

(** *** Rename *)

Lemma handleSaveEdit_run (env : Env) (st : Uploader.State) :
  run (Uploader.handleSaveEdit env) st =
  match Uploader.editingFile st with
  | Some editing =>
      let i := UploadedFile.id editing in
      let n := Js.trim (Uploader.newDisplayName st) in
      if Js.eqb n [] then (st, [])
      else
        match reply_updateDoc env i n with
        | Fulfilled _ =>
            (Uploader.updNewDisplayName []
               (Uploader.updEditingFile None
                  (Uploader.updFiles (Uploader.rename i n) st)),
             [(st, updateDoc i n)])
        | Rejected e =>
            (Uploader.updNewDisplayName []
               (Uploader.updEditingFile None st),
             [(st, updateDoc i n);
              (st, console_error [Js.lit "Error updating file name:"; e]);
              (st, alert Uploader.msg_rename_error)])
        end
  | None => (st, [])
  end.
Proof.
  handlers_unfold. destruct (Uploader.editingFile st) as [ed|];
    [|reflexivity]. cbv zeta.
  destruct (Js.eqb (Js.trim (Uploader.newDisplayName st)) []);
    [reflexivity|]. simpl.
  destruct (reply_updateDoc env _ _); reflexivity.
Qed.

Lemma rename_fields (i n : jsstring) (fs : list UploadedFile.t) :
  map UploadedFile.id (Uploader.rename i n fs) = map UploadedFile.id fs
  /\ map UploadedFile.dataUrl (Uploader.rename i n fs)
     = map UploadedFile.dataUrl fs
  /\ map UploadedFile.size (Uploader.rename i n fs)
     = map UploadedFile.size fs
  /\ map UploadedFile.type (Uploader.rename i n fs)
     = map UploadedFile.type fs
  /\ map UploadedFile.createdAt (Uploader.rename i n fs)
     = map UploadedFile.createdAt fs.
Proof.
  unfold Uploader.rename. rewrite !map_map.
  repeat split; apply map_ext; intros f;
    destruct (Js.eqb (UploadedFile.id f) i); reflexivity.
Qed.

Lemma rename_unlisted (i n : jsstring) (fs : list UploadedFile.t) :
  ~ In i (map UploadedFile.id fs) -> Uploader.rename i n fs = fs.
Proof.
  unfold Uploader.rename.
  induction fs as [|f fs IH]; simpl; intros Hno; [reflexivity|].
  destruct (Js.eqb (UploadedFile.id f) i) eqn:E.
  - apply eqb_eq in E. exfalso. apply Hno. now left.
  - rewrite IH; [reflexivity|]. intros H. apply Hno. now right.
Qed.

(** X6. A rename commit can only change display names.  Whatever the
    buffer and whatever the store answers, the ids, payloads, sizes, types
    and creation times of the listed records are the same before and after,
    in the same order, and the flags and the copied indicator are untouched.
    When the edited record is no longer listed the list itself is
    unchanged. *)
Theorem rename_changes_names_only (env : Env) (st : Uploader.State) :
  let st' := fst (run (Uploader.handleSaveEdit env) st) in
  map UploadedFile.id (Uploader.files st')
    = map UploadedFile.id (Uploader.files st)
  /\ map UploadedFile.dataUrl (Uploader.files st')
     = map UploadedFile.dataUrl (Uploader.files st)
  /\ map UploadedFile.size (Uploader.files st')
     = map UploadedFile.size (Uploader.files st)
  /\ map UploadedFile.type (Uploader.files st')
     = map UploadedFile.type (Uploader.files st)
  /\ map UploadedFile.createdAt (Uploader.files st')
     = map UploadedFile.createdAt (Uploader.files st)
  /\ Uploader.isDragging st' = Uploader.isDragging st
  /\ Uploader.isUploading st' = Uploader.isUploading st
  /\ Uploader.isLoading st' = Uploader.isLoading st
  /\ Uploader.copiedUrlId st' = Uploader.copiedUrlId st
  /\ (forall editing,
        Uploader.editingFile st = Some editing ->
        ~ In (UploadedFile.id editing)
             (map UploadedFile.id (Uploader.files st)) ->
        Uploader.files st' = Uploader.files st).
Proof.
  cbv zeta. rewrite handleSaveEdit_run.
  destruct (Uploader.editingFile st) as [ed|]; cbv zeta.
  - destruct (Js.eqb (Js.trim (Uploader.newDisplayName st)) []).
    + simpl. repeat split.
    + destruct (reply_updateDoc env _ _) as [u|e]; simpl.
      * destruct (rename_fields (UploadedFile.id ed)
                    (Js.trim (Uploader.newDisplayName st))
                    (Uploader.files st)) as (H1 & H2 & H3 & H4 & H5).
        repeat split; try assumption.
        intros ed' E Hno. inversion E; subst.
        now apply rename_unlisted.
      * repeat split.
  - simpl. repeat split.
Qed.

Lemma rename_changes_names_only_witness :
  map UploadedFile.id
    (Uploader.files
       (fst (run (Uploader.handleSaveEdit env_online)
                 Uploader.sample_editing)))
  = [Js.lit "a1"; Js.lit "b2"].
Proof.
  exact (proj1 (rename_changes_names_only env_online
                  Uploader.sample_editing)).
Defined.

(** Facts on [trim]. *)

Lemma trimStart_head (s : jsstring) (c : N) (r : jsstring) :
  Js.trimStart s = c :: r -> Js.is_space c = false.
Proof.
  induction s as [|d rest IH]; simpl; [discriminate|].
  destruct (Js.is_space d) eqn:E; [exact IH|].
  intros H. inversion H; subst. exact E.
Qed.

Lemma trimStart_split (s : jsstring) :
  exists sp, s = sp ++ Js.trimStart s /\ forallb Js.is_space sp = true.
Proof.
  induction s as [|d rest (sp & E & Hsp)]; simpl.
  - exists []. split; reflexivity.
  - destruct (Js.is_space d) eqn:Ed.
    + exists (d :: sp). simpl. rewrite Ed, Hsp. split; [|reflexivity].
      f_equal. exact E.
    + exists []. split; reflexivity.
Qed.

Lemma trimStart_fixed (s : jsstring) :
  (forall c r, s = c :: r -> Js.is_space c = false) -> Js.trimStart s = s.
Proof.
  destruct s as [|c r]; [reflexivity|]. intros H. simpl.
  now rewrite (H c r eq_refl).
Qed.

Lemma trimEnd_split (t : jsstring) :
  exists sp, t = Js.trimEnd t ++ sp /\ forallb Js.is_space sp = true.
Proof.
  unfold Js.trimEnd. destruct (trimStart_split (rev t)) as (sp & E & Hsp).
  exists (rev sp). split.
  - rewrite <- rev_app_distr, <- E. now rewrite rev_involutive.
  - now rewrite forallb_rev_eq.
Qed.

Lemma trimEnd_last (t : jsstring) (front : jsstring) (c : N) :
  Js.trimEnd t = front ++ [c] -> Js.is_space c = false.
Proof.
  unfold Js.trimEnd. intros H.
  apply (f_equal (@rev N)) in H. rewrite rev_involutive in H.
  rewrite rev_app_distr in H. simpl in H.
  exact (trimStart_head _ _ _ H).
Qed.

Lemma trim_head (s : jsstring) (c : N) (r : jsstring) :
  Js.trim s = c :: r -> Js.is_space c = false.
Proof.
  unfold Js.trim. intros H.
  destruct (trimEnd_split (Js.trimStart s)) as (sp & E & _).
  rewrite H in E. simpl in E. exact (trimStart_head s _ _ E).
Qed.

Lemma trim_last (s : jsstring) (front : jsstring) (c : N) :
  Js.trim s = front ++ [c] -> Js.is_space c = false.
Proof. unfold Js.trim. apply trimEnd_last. Qed.

Lemma trim_idempotent (s : jsstring) : Js.trim (Js.trim s) = Js.trim s.
Proof.
  assert (Hs : Js.trimStart (Js.trim s) = Js.trim s).
  { apply trimStart_fixed. intros c r. apply trim_head. }
  unfold Js.trim at 1. rewrite Hs. unfold Js.trimEnd.
  rewrite trimStart_fixed; [apply rev_involutive|].
  intros c r E. apply (f_equal (@rev N)) in E.
  rewrite rev_involutive in E. simpl in E.
  exact (trim_last s _ _ E).
Qed.

(** X7. The name a rename commit sends to the store.  A commit sends at
    most one update, for the id of the record being edited, and the name in
    it is the trimmed buffer: it is never empty, it neither starts nor ends
    with a white-space code unit, and trimming it again changes nothing. *)
Theorem saved_name_is_trimmed (env : Env) (st : Uploader.State) :
  let tr := snd (run (Uploader.handleSaveEdit env) st) in
  (List.length (UploaderView.updates tr) <= 1)%nat
  /\ store_requests tr
     = map (fun u => updateDoc (fst u) (snd u)) (UploaderView.updates tr)
  /\ (forall i n,
        In (i, n) (UploaderView.updates tr) ->
        n = Js.trim (Uploader.newDisplayName st)
        /\ option_map UploadedFile.id (Uploader.editingFile st) = Some i
        /\ n <> []
        /\ (forall c rest, n = c :: rest -> Js.is_space c = false)
        /\ (forall front c, n = front ++ [c] -> Js.is_space c = false)
        /\ Js.trim n = n).
Proof.
  cbv zeta. rewrite handleSaveEdit_run.
  destruct (Uploader.editingFile st) as [ed|]; cbv zeta.
  - destruct (Js.eqb (Js.trim (Uploader.newDisplayName st)) []) eqn:Hb.
    + simpl. split; [lia|]. split; [reflexivity|]. intros i n [].
    + apply eqb_neq in Hb.
      assert (Hall : forall i n,
                 (UploadedFile.id ed,
                  Js.trim (Uploader.newDisplayName st)) = (i, n) \/ False ->
                 n = Js.trim (Uploader.newDisplayName st)
                 /\ Some (UploadedFile.id ed) = Some i
                 /\ n <> []
                 /\ (forall c rest, n = c :: rest -> Js.is_space c = false)
                 /\ (forall front c,
                       n = front ++ [c] -> Js.is_space c = false)
                 /\ Js.trim n = n).
      { intros i n [E|[]]. inversion E; subst.
        split; [reflexivity|]. split; [reflexivity|].
        split; [exact Hb|]. split; [intros c r; apply trim_head|].
        split; [intros fr c; apply trim_last | apply trim_idempotent]. }
      destruct (reply_updateDoc env _ _) as [u|e]; simpl;
        (split; [lia|]); (split; [reflexivity | exact Hall]).
  - simpl. split; [lia|]. split; [reflexivity|]. intros i n [].
Qed.

Lemma saved_name_is_trimmed_witness :
  Js.trim (Js.lit "vacation.png") = Js.lit "vacation.png".
Proof.
  refine (proj2 (proj2 (proj2 (proj2 (proj2
    (proj2 (proj2 (saved_name_is_trimmed env_online
                     Uploader.sample_editing))
       (Js.lit "a1") (Js.lit "vacation.png") _)))))).
  left. reflexivity.
Defined.

(** *** Edit mode *)

(** X8. Entering edit mode and cancelling is a round trip.  From a state
    with no row in edit mode, a click on a row's edit button followed by
    Escape, or by the cancel handler, gives back the very same state and
    sends nothing to the store; any other key but Enter leaves the row in
    edit mode with the buffer as it is. *)
Theorem edit_then_cancel_restores
    (env : Env) (st : Uploader.State) (file : UploadedFile.t) :
  Uploader.editingFile st = None ->
  Uploader.newDisplayName st = [] ->
  run (bind (Uploader.handleEdit file)
            (fun _ => Uploader.handleCancelEdit)) st = (st, [])
  /\ run (bind (Uploader.handleEdit file)
               (fun _ => Uploader.onKeyDown env Uploader.Escape)) st
     = (st, [])
  /\ run (bind (Uploader.handleEdit file)
               (fun _ => Uploader.onKeyDown env Uploader.OtherKey)) st
     = (Uploader.updNewDisplayName (UploadedFile.displayName file)
          (Uploader.updEditingFile (Some file) st), []).
Proof.
  intros He Hb. destruct st as [fs dr up ld cp ed buf].
  simpl in He, Hb. subst ed buf. repeat split.
Qed.

Lemma edit_then_cancel_restores_witness :
  run (bind (Uploader.handleEdit (Uploader.sample_record "a1" "photo.png"))
            (fun _ => Uploader.handleCancelEdit)) Uploader.initial
  = (Uploader.initial, []).
Proof.
  exact (proj1 (edit_then_cancel_restores env_online Uploader.initial
                  (Uploader.sample_record "a1" "photo.png")
                  eq_refl eq_refl)).
Defined.

(** X9. Leaving the rename input without typing.  The buffer is seeded
    with the record's display name, so when the input loses focus right
    after edit mode is entered, a name that is not blank is sent to the
    store again (trimmed) and edit mode is left, while for a blank name
    nothing is sent and the row stays in edit mode with its buffer. *)
Theorem blur_without_typing
    (env : Env) (st : Uploader.State) (file : UploadedFile.t) :
  let r := run (bind (Uploader.handleEdit file)
                     (fun _ => Uploader.onBlur env)) st in
  if Js.eqb (Js.trim (UploadedFile.displayName file)) [] then
    snd r = []
    /\ Uploader.editingFile (fst r) = Some file
    /\ Uploader.newDisplayName (fst r) = UploadedFile.displayName file
  else
    UploaderView.updates (snd r)
    = [(UploadedFile.id file, Js.trim (UploadedFile.displayName file))]
    /\ Uploader.editingFile (fst r) = None
    /\ Uploader.newDisplayName (fst r) = [].
Proof.
  cbv zeta. handlers_unfold. simpl.
  destruct (Js.eqb (Js.trim (UploadedFile.displayName file)) []); simpl.
  - repeat split.
  - destruct (reply_updateDoc env _ _); simpl; repeat split.
Qed.

Lemma same_id_same_record (fs : list UploadedFile.t)
    (a b : UploadedFile.t) :
  NoDup (map UploadedFile.id fs) ->
  In a fs -> In b fs -> UploadedFile.id a = UploadedFile.id b -> a = b.
Proof.
  induction fs as [|f fs IH]; simpl; intros Hnd Ha Hb E; [contradiction|].
  inversion Hnd as [|? ? Hf Hrest]; subst.
  destruct Ha as [->|Ha], Hb as [->|Hb].
  - reflexivity.
  - exfalso. apply Hf. rewrite E. now apply in_map.
  - exfalso. apply Hf. rewrite <- E. now apply in_map.
  - now apply IH.
Qed.

(** X10. Which row shows the rename input.  After a click on the edit
    button of a listed record, in a list with unique ids, that record's row
    shows the input, holding the record's display name, every other row
    shows its display name as text, and the list is the same. *)
Theorem edit_mode_row (st : Uploader.State) (file : UploadedFile.t) :
  NoDup (map UploadedFile.id (Uploader.files st)) ->
  In file (Uploader.files st) ->
  let st' := fst (run (Uploader.handleEdit file) st) in
  Uploader.files st' = Uploader.files st
  /\ UploaderView.name_cell st' file
     = UploaderView.edit_input (UploadedFile.displayName file)
  /\ (forall other,
        In other (Uploader.files st) -> other <> file ->
        UploaderView.name_cell st' other
        = UploaderView.name_text (UploadedFile.displayName other)).
Proof.
  intros Hnd Hin. cbv zeta. handlers_unfold. simpl.
  split; [reflexivity|]. split.
  - unfold UploaderView.name_cell, UploaderView.is_editing. simpl.
    now rewrite eqb_refl.
  - intros other Ho Hne.
    unfold UploaderView.name_cell, UploaderView.is_editing. simpl.
    destruct (Js.eqb (UploadedFile.id file) (UploadedFile.id other)) eqn:E;
      [|reflexivity].
    apply eqb_eq in E. exfalso. apply Hne.
    exact (same_id_same_record _ other file Hnd Ho Hin (eq_sym E)).
Qed.

Lemma edit_mode_row_witness :
  UploaderView.name_cell
    (fst (run (Uploader.handleEdit (Uploader.sample_record "b2" "scan.png"))
              Uploader.sample_editing))
    (Uploader.sample_record "b2" "scan.png")
  = UploaderView.edit_input (Js.lit "scan.png").
Proof.
  refine (proj1 (proj2 (edit_mode_row Uploader.sample_editing
                          (Uploader.sample_record "b2" "scan.png") _ _))).
  - repeat constructor; simpl; intuition discriminate.
  - right. left. reflexivity.
Defined.

(** *** The share link *)

Lemma split_single (sep : N) (a : jsstring) :
  ~ In sep a -> Js.split sep a = [a].
Proof.
  induction a as [|c a IH]; simpl; intros Hno; [reflexivity|].
  destruct (N.eqb_spec c sep) as [->|Hne].
  - exfalso. apply Hno. now left.
  - rewrite IH; [reflexivity|]. intros H. apply Hno. now right.
Qed.

Lemma split_at_sep (sep : N) (a b : jsstring) :
  ~ In sep a -> Js.split sep (a ++ sep :: b) = a :: Js.split sep b.
Proof.
  induction a as [|c a IH]; simpl; intros Hno.
  - now rewrite N.eqb_refl.
  - destruct (N.eqb_spec c sep) as [->|Hne].
    + exfalso. apply Hno. now left.
    + rewrite IH; [reflexivity|]. intros H. apply Hno. now right.
Qed.

Lemma share_fragment_parts (a : jsstring) :
  Router.parts (UploaderView.share_fragment a)
  = Js.lit "view" :: filter Js.truthy (Js.split 47 a).
Proof.
  unfold Router.parts, UploaderView.share_fragment.
  change (Js.slice1 (Js.lit "#/view/" ++ a))
    with (47%N :: (Js.lit "view" ++ 47%N :: a)).
  change (Js.split 47 (47%N :: (Js.lit "view" ++ 47%N :: a)))
    with ([] :: Js.split 47 (Js.lit "view" ++ 47%N :: a)).
  rewrite split_at_sep; [reflexivity|].
  vm_compute. intuition discriminate.
Qed.

Lemma from_hash_at (pre rest : jsstring) :
  ~ In 35%N pre -> UploaderView.from_hash (pre ++ 35%N :: rest) = 35%N :: rest.
Proof.
  induction pre as [|c pre IH]; simpl; intros Hno; [reflexivity|].
  destruct (N.eqb_spec c 35) as [->|Hne].
  - exfalso. apply Hno. now left.
  - apply IH. intros H. apply Hno. now right.
Qed.

Lemma location_hash_share (origin pathname a : jsstring) :
  ~ In 35%N origin -> ~ In 35%N pathname ->
  forallb UploaderView.fragment_safe a = true ->
  UploaderView.location_hash
    (origin ++ pathname ++ UploaderView.share_fragment a)
  = Some (UploaderView.share_fragment a).
Proof.
  intros Ho Hp Ha. unfold UploaderView.location_hash.
  rewrite app_assoc.
  change (UploaderView.share_fragment a)
    with (35%N :: (Js.lit "/view/" ++ a)).
  rewrite from_hash_at.
  - change (Js.lit "/view/" ++ a)
      with (47%N :: 118%N :: 105%N :: 101%N :: 119%N :: 47%N :: a).
    cbv beta iota. simpl tl. simpl forallb. rewrite Ha. reflexivity.
  - intros H. apply in_app_iff in H. tauto.
Qed.

(** An id with a space is rewritten by the URL parser: the page does not
    report the fragment as it was written. *)
Example location_hash_of_spaced_id :
  UploaderView.location_hash (Js.lit "https://example.com/#/view/a b")
  = None
  /\ UploaderView.location_hash (Js.lit "https://example.com/") = Some []
  /\ UploaderView.location_hash (Js.lit "https://example.com/#") = Some [].
Proof. repeat split. Qed.

(** X11. The share link leads back to the record.  The text the copy-link
    action writes to the clipboard is the origin, the path and the fragment
    [#/view/<id>].  For an id that is not empty, holds no slash and is made
    of code units a URL keeps as they are in its fragment, the page opened
    at that text reports exactly this fragment, the router maps it to the
    view state with that id and the Viewer mounts with it.  With a slash
    after such an id the Viewer mounts with the part before the first slash
    only. *)
Theorem share_link_round_trip
    (env : Env) (origin pathname : jsstring) (file : UploadedFile.t)
    (p : Uploader.Page) :
  UploadedFile.id file <> [] ->
  ~ In 47%N (UploadedFile.id file) ->
  forallb UploaderView.fragment_safe (UploadedFile.id file) = true ->
  ~ In 35%N origin ->
  ~ In 35%N pathname ->
  let url := UploaderView.urlToCopy origin pathname (UploadedFile.id file) in
  map snd (snd (run (Uploader.handleCopyUrl env origin pathname file) p))
    = [clipboard_writeText url]
  /\ url = origin ++ pathname ++ Js.lit "#/view/" ++ UploadedFile.id file
  /\ UploaderView.location_hash url
     = Some (Js.lit "#/view/" ++ UploadedFile.id file)
  /\ (forall h, UploaderView.location_hash url = Some h ->
        Router.handleHashChange h
        = {| Router.path := Router.view;
             Router.id := Some (UploadedFile.id file) |})
  /\ UploaderView.route_of_url url
     = Some (Router.MountFileViewer (UploadedFile.id file))
  /\ (forall tail,
        forallb UploaderView.fragment_safe tail = true ->
        UploaderView.route_of_url
          (UploaderView.urlToCopy origin pathname
             (UploadedFile.id file ++ 47%N :: tail))
        = Some (Router.MountFileViewer (UploadedFile.id file))).
Proof.
  intros Hne Hno Hsafe Ho Hp. cbv zeta.
  apply truthy_nonempty in Hne as Ht.
  assert (Hhash : UploaderView.location_hash
            (UploaderView.urlToCopy origin pathname (UploadedFile.id file))
          = Some (UploaderView.share_fragment (UploadedFile.id file))).
  { now apply location_hash_share. }
  assert (Hroute : Router.handleHashChange
                     (UploaderView.share_fragment (UploadedFile.id file))
                   = {| Router.path := Router.view;
                        Router.id := Some (UploadedFile.id file) |}).
  { unfold Router.handleHashChange.
    rewrite share_fragment_parts, split_single by exact Hno.
    simpl. rewrite Ht. simpl. rewrite Ht. reflexivity. }
  split.
  { unfold Uploader.handleCopyUrl. eff_unfold.
    unfold Uploader.setCopiedUrlId, Uploader.setTimeout. eff_unfold.
    destruct (reply_writeText env _); reflexivity. }
  split; [reflexivity|]. split; [exact Hhash|]. split.
  { intros h Hh. rewrite Hhash in Hh. inversion Hh; subst. exact Hroute. }
  split.
  { unfold UploaderView.route_of_url. rewrite Hhash, Hroute.
    unfold Router.App. simpl. now rewrite Ht. }
  intros tail Htail. unfold UploaderView.route_of_url.
  unfold UploaderView.urlToCopy. rewrite location_hash_share; try assumption.
  - f_equal. unfold Router.handleHashChange.
    rewrite share_fragment_parts, split_at_sep by exact Hno.
    simpl. rewrite Ht. simpl. rewrite Ht.
    unfold Router.App. simpl. now rewrite Ht.
  - rewrite forallb_app. rewrite Hsafe. simpl. exact Htail.
Qed.

Lemma share_link_round_trip_witness :
  UploaderView.route_of_url
    (Js.lit "https://example.com/#/view/a1")
  = Some (Router.MountFileViewer (Js.lit "a1")).
Proof.
  refine (proj1 (proj2 (proj2 (proj2 (proj2
    (share_link_round_trip env_online (Js.lit "https://example.com")
       (Js.lit "/") (Uploader.sample_record "a1" "photo.png")
       Uploader.sample_page _ _ eq_refl _ _)))))).
  - discriminate.
  - vm_compute. intuition discriminate.
  - vm_compute. intuition discriminate.
  - vm_compute. intuition discriminate.
Defined.

(** X12. What the copy-link action does besides the clipboard write.  It
    sends nothing to the store, shows no alert and never throws.  When the
    clipboard write is rejected the page is left exactly as it was: no
    indicator, no timer, no message. *)
Theorem copy_link_effects
    (env : Env) (origin pathname : jsstring) (file : UploadedFile.t)
    (p : Uploader.Page) :
  let r := run (Uploader.handleCopyUrl env origin pathname file) p in
  store_requests (snd r) = []
  /\ alerts (snd r) = []
  /\ completion (Uploader.handleCopyUrl env origin pathname file) p
     = Normal tt
  /\ Uploader.files (Uploader.ui (fst r)) = Uploader.files (Uploader.ui p)
  /\ match reply_writeText env
             (UploaderView.urlToCopy origin pathname (UploadedFile.id file))
     with
     | Fulfilled _ =>
         Uploader.copiedUrlId (Uploader.ui (fst r))
         = Some (UploadedFile.id file)
         /\ List.length (Uploader.timers (fst r))
            = S (List.length (Uploader.timers p))
     | Rejected _ => fst r = p
     end.
Proof.
  cbv zeta. unfold Uploader.handleCopyUrl, UploaderView.urlToCopy,
    UploaderView.share_fragment. eff_unfold.
  unfold Uploader.setCopiedUrlId, Uploader.setTimeout. eff_unfold.
  destruct (reply_writeText env _) as [u|e]; simpl.
  - repeat split. clear.
    induction (Uploader.timers p) as [|entry rest IH]; simpl;
      [reflexivity|].
    destruct (Uploader.now p + 2000 <? fst entry)%Z; simpl;
      [reflexivity | now rewrite IH].
  - repeat split.
Qed.

(** *** From the uploader to the viewer *)

(** X13. Every record the uploader creates is one the Viewer can show.
    For a file of an accepted type, a fetch, from any state of the Viewer
    with no error message of an earlier fetch set (the first fetch after
    mount among them), that finds the record the store made of the uploaded
    payload renders the PDF type in the embedded frame and every other
    accepted type as an image, with the encoded payload as source and the
    original file name as label; it shows neither an error view nor
    nothing, and sets no error. *)
Theorem viewer_renders_uploaded_record
    (env : Env) (fileId dataUrl : jsstring) (f : File.t) (ts : Timestamp)
    (st : FileViewer.State) :
  In (File.type f) Uploader.acceptedFileTypes ->
  reply_getDoc env fileId
    = Fulfilled (Some (UploaderView.stored
                         (Uploader.upload_payload f dataUrl) ts)) ->
  Js.truthy_opt (FileViewer.error st) = false ->
  let st' := fst (run (FileViewer.fetchFile env fileId) st) in
  FileViewer.render st'
  = (if Js.eqb (File.type f) (Js.lit "application/pdf")
     then FileViewer.iframe dataUrl (File.name f)
     else FileViewer.img dataUrl (File.name f))
  /\ FileViewer.error st' = FileViewer.error st
  /\ (forall message href,
        FileViewer.render st' <> FileViewer.error_view message href)
  /\ FileViewer.render st' <> FileViewer.null
  /\ FileViewer.render st' <> FileViewer.spinner.
Proof.
  intros Ht Hfound Hno. cbv zeta. rewrite fetchFile_run, Hfound.
  unfold FileViewer.render. simpl. rewrite Hno.
  destruct Ht as [<-|[<-|[<-|[<-|[]]]]]; simpl;
    repeat split; try discriminate; intros; discriminate.
Qed.

Lemma viewer_renders_uploaded_record_witness :
  FileViewer.render
    (fst (run (FileViewer.fetchFile
                 (env_with [(Js.lit "doc1",
                             UploaderView.stored
                               (Uploader.upload_payload
                                  (Uploader.sample_png 204800)
                                  (Js.lit "data:"))
                               {| seconds := 1; nanoseconds := 0 |})])
                 (Js.lit "doc1"))
              FileViewer.initial))
  = FileViewer.img (Js.lit "data:") (Js.lit "photo.png").
Proof.
  refine (proj1 (viewer_renders_uploaded_record
            (env_with [(Js.lit "doc1",
                        UploaderView.stored
                          (Uploader.upload_payload
                             (Uploader.sample_png 204800) (Js.lit "data:"))
                          {| seconds := 1; nanoseconds := 0 |})])
            (Js.lit "doc1") (Js.lit "data:")
            (Uploader.sample_png 204800)
            {| seconds := 1; nanoseconds := 0 |} FileViewer.initial
            _ eq_refl eq_refl)).
  apply includes_In. vm_compute. reflexivity.
Defined.

(** *** The timer queue *)

Local Open Scope Z_scope.

Lemma schedule_In (due : Z) (cb : Uploader.Callback)
    (q : list (Z * Uploader.Callback)) (x : Z * Uploader.Callback) :
  In x (Uploader.schedule due cb q) -> x = (due, cb) \/ In x q.
Proof.
  induction q as [|entry rest IH]; simpl.
  - intros [<-|[]]. now left.
  - destruct (due <? fst entry).
    + intros [<-|H]; [now left | now right].
    + intros [<-|H]; [right; now left|].
      destruct (IH H) as [->|H']; [now left | right; now right].
Qed.

Lemma schedule_sorted (due : Z) (cb : Uploader.Callback)
    (q : list (Z * Uploader.Callback)) :
  UploaderView.sorted q = true ->
  UploaderView.sorted (Uploader.schedule due cb q) = true.
Proof.
  induction q as [|entry rest IH]; simpl; [reflexivity|].
  intros H. apply andb_true_iff in H. destruct H as [Hall Hs].
  rewrite forallb_forall in Hall.
  destruct (Z.ltb_spec due (fst entry)) as [Hlt|Hge].
  - simpl. apply andb_true_iff. split.
    + apply andb_true_iff. split; [apply Z.leb_le; lia|].
      apply forallb_forall. intros x Hx. apply Hall in Hx.
      apply Z.leb_le in Hx. apply Z.leb_le. lia.
    + apply andb_true_iff. split; [now apply forallb_forall | exact Hs].
  - simpl. apply andb_true_iff. split; [|now apply IH].
    apply forallb_forall. intros x Hx.
    destruct (schedule_In _ _ _ _ Hx) as [->|Hin].
    + apply Z.leb_le. simpl. lia.
    + now apply Hall.
Qed.

Lemma sorted_filter (f : Z * Uploader.Callback -> bool)
    (q : list (Z * Uploader.Callback)) :
  UploaderView.sorted q = true -> UploaderView.sorted (filter f q) = true.
Proof.
  induction q as [|entry rest IH]; simpl; [reflexivity|].
  intros H. apply andb_true_iff in H. destruct H as [Hall Hs].
  destruct (f entry); [|now apply IH].
  simpl. apply andb_true_iff. split; [|now apply IH].
  rewrite forallb_forall in *. intros x Hx.
  apply filter_In in Hx. now apply Hall.
Qed.

Lemma fire_files (t : Z) (q : list (Z * Uploader.Callback))
    (st : Uploader.State) :
  Uploader.files (fst (Uploader.fire t q st)) = Uploader.files st.
Proof.
  revert st. induction q as [|[d []] rest IH]; simpl; intros st;
    [reflexivity|].
  destruct (d <=? t); [now rewrite IH | reflexivity].
Qed.

Lemma fire_sorted (t : Z) (q : list (Z * Uploader.Callback))
    (st : Uploader.State) :
  UploaderView.sorted q = true ->
  snd (Uploader.fire t q st) = filter (fun e => t <? fst e) q
  /\ Uploader.copiedUrlId (fst (Uploader.fire t q st))
     = if existsb (fun e => fst e <=? t) q then None
       else Uploader.copiedUrlId st.
Proof.
  revert st. induction q as [|entry rest IH]; simpl; intros st H;
    [split; reflexivity|].
  apply andb_true_iff in H. destruct H as [Hall Hs].
  destruct (Z.leb_spec (fst entry) t) as [Hdue|Hnot].
  - destruct (IH (Uploader.call (snd entry) st) Hs) as [Hq _].
    rewrite Hq. replace (t <? fst entry) with false
      by (symmetry; apply Z.ltb_ge; lia).
    split; [reflexivity|]. simpl.
    apply fire_stays_cleared. destruct (snd entry). reflexivity.
  - rewrite forallb_forall in Hall.
    replace (t <? fst entry) with true by (symmetry; apply Z.ltb_lt; lia).
    simpl. split.
    + f_equal. clear IH Hs. induction rest as [|x rest IHr];
        [reflexivity|].
      simpl. assert (Hx : (fst entry <=? fst x) = true)
        by (apply Hall; now left).
      apply Z.leb_le in Hx.
      replace (t <? fst x) with true by (symmetry; apply Z.ltb_lt; lia).
      f_equal. apply IHr. intros y Hy. apply Hall. now right.
    + replace (existsb (fun e => fst e <=? t) rest) with false;
        [reflexivity|].
      symmetry. apply not_true_is_false. intros Hex.
      apply existsb_exists in Hex. destruct Hex as (x & Hx & Hle).
      apply Hall in Hx. apply Z.leb_le in Hx, Hle. lia.
Qed.

(** X14. The timer queue behaves like the browser's.  A queue in firing
    order stays in firing order when a copy schedules its clear and when
    time passes; letting time pass to [t] fires exactly the timers due by
    [t] and keeps the others; the copied indicator is cleared when at least
    one timer fired and is what it was otherwise, and the list is never
    touched.  So once every pending timer is due, after a copy, the queue
    is empty and no row shows the indicator. *)
Theorem timer_queue_fires_due_timers
    (p : Uploader.Page) (file : UploadedFile.t) (t : Z) :
  UploaderView.sorted (Uploader.timers p) = true ->
  UploaderView.sorted (Uploader.timers (Uploader.copy file p)) = true
  /\ UploaderView.sorted (Uploader.timers (Uploader.advance t p)) = true
  /\ Uploader.timers (Uploader.advance t p)
     = filter (fun e => t <? fst e) (Uploader.timers p)
  /\ Uploader.copiedUrlId (Uploader.ui (Uploader.advance t p))
     = (if existsb (fun e => fst e <=? t) (Uploader.timers p) then None
        else Uploader.copiedUrlId (Uploader.ui p))
  /\ Uploader.files (Uploader.ui (Uploader.advance t p))
     = Uploader.files (Uploader.ui p)
  /\ ((forall e, In e (Uploader.timers (Uploader.copy file p)) ->
                 fst e <= t) ->
      Uploader.timers (Uploader.advance t (Uploader.copy file p)) = []
      /\ Uploader.copiedUrlId
           (Uploader.ui (Uploader.advance t (Uploader.copy file p)))
         = None).
Proof.
  intros Hs.
  assert (Hadv : forall q, UploaderView.sorted (Uploader.timers q) = true ->
            Uploader.timers (Uploader.advance t q)
            = filter (fun e => t <? fst e) (Uploader.timers q)
            /\ Uploader.copiedUrlId (Uploader.ui (Uploader.advance t q))
               = (if existsb (fun e => fst e <=? t) (Uploader.timers q)
                  then None else Uploader.copiedUrlId (Uploader.ui q))).
  { intros q Hq.
    destruct (fire_sorted t (Uploader.timers q) (Uploader.ui q) Hq)
      as [H1 H2].
    unfold Uploader.advance.
    destruct (Uploader.fire t (Uploader.timers q) (Uploader.ui q))
      as [s' q']. simpl in *. now split. }
  assert (Hcopy : UploaderView.sorted
                    (Uploader.timers (Uploader.copy file p)) = true).
  { rewrite copy_page. simpl. now apply schedule_sorted. }
  destruct (Hadv p Hs) as [Hq Hc].
  split; [exact Hcopy|].
  split; [rewrite Hq; now apply sorted_filter|].
  split; [exact Hq|]. split; [exact Hc|]. split.
  - rewrite advance_ui. apply fire_files.
  - intros Hdue. destruct (Hadv (Uploader.copy file p) Hcopy) as [Hq' Hc'].
    assert (Hne : exists e, In e (Uploader.timers (Uploader.copy file p))).
    { rewrite copy_page. simpl.
      destruct (Uploader.timers p) as [|entry rest]; simpl.
      - eexists. now left.
      - destruct (Uploader.now p + 2000 <? fst entry);
          eexists; now left. }
    split.
    + rewrite Hq'. clear Hq' Hc' Hne Hcopy.
      induction (Uploader.timers (Uploader.copy file p)) as [|e q IH];
        [reflexivity|].
      simpl. assert (He : fst e <= t) by (apply Hdue; now left).
      replace (t <? fst e) with false by (symmetry; apply Z.ltb_ge; lia).
      apply IH. intros x Hx. apply Hdue. now right.
    + rewrite Hc'. destruct Hne as (e & He).
      replace (existsb (fun e0 => fst e0 <=? t)
                 (Uploader.timers (Uploader.copy file p))) with true;
        [reflexivity|].
      symmetry. apply existsb_exists. exists e. split; [exact He|].
      apply Z.leb_le. now apply Hdue.
Qed.

Lemma timer_queue_fires_due_timers_witness :
  Uploader.timers (Uploader.advance 1500 Uploader.sample_two_copies)
  = filter (fun e => 1500 <? fst e)
           (Uploader.timers Uploader.sample_two_copies).
Proof.
  exact (proj1 (proj2 (proj2
    (timer_queue_fires_due_timers Uploader.sample_two_copies
       (Uploader.sample_record "a1" "photo.png") 1500 eq_refl)))).
Defined.

Local Close Scope Z_scope.

(** *** The size line of a row *)

Local Open Scope N_scope.

(** X15. The size shown on a row is the size in KiB rounded to the nearest
    tenth, halves rounded up: the tenths shown are within half a tenth of
    the true value, they grow with the size, a file the uploader accepts
    shows at most 750.0 KB, and a file shows 0.0 KB exactly when it has
    fewer than 52 bytes. *)
Theorem size_label_rounds_to_tenths (size : N) :
  let n := UploaderView.tenths_of_kib size in
  1024 * n <= 10 * size + 512
  /\ 10 * size + 512 < 1024 * (n + 1)
  /\ (forall bigger, size <= bigger ->
                     n <= UploaderView.tenths_of_kib bigger)
  /\ (size <= Uploader.MAX_FILE_SIZE_BYTES -> n <= 7500)
  /\ (n = 0 <-> size < 52)
  /\ UploaderView.size_label size
     = Js.toFixed0 (n / 10) ++ Js.lit "." ++ Js.toFixed0 (n mod 10)
       ++ Js.lit " KB".
Proof.
  cbv zeta. unfold UploaderView.tenths_of_kib.
  assert (Hq : 1024 * ((10 * size + 512) / 1024) <= 10 * size + 512
               /\ 10 * size + 512 < 1024 * ((10 * size + 512) / 1024 + 1)).
  { pose proof (N.div_mod (10 * size + 512) 1024 ltac:(discriminate)) as Hd.
    pose proof (N.mod_lt (10 * size + 512) 1024 ltac:(discriminate)) as Hm.
    set (q := (10 * size + 512) / 1024) in *.
    set (r := (10 * size + 512) mod 1024) in *.
    clearbody q r. split; lia. }
  destruct Hq as [Hlow Hhigh].
  split; [exact Hlow|]. split; [exact Hhigh|]. split.
  { intros bigger Hle. apply N.Div0.div_le_mono. lia. }
  split.
  { intros Hmax. unfold Uploader.MAX_FILE_SIZE_BYTES in Hmax.
    change 7500 with ((10 * (750 * 1024) + 512) / 1024).
    apply N.Div0.div_le_mono. lia. }
  split.
  { split.
    - intros H0. rewrite H0 in Hhigh. lia.
    - intros Hlt. apply N.div_small. lia. }
  unfold UploaderView.size_label, UploaderView.toFixed1_kib,
    UploaderView.tenths_of_kib.
  now rewrite <- !app_assoc.
Qed.

Lemma size_label_rounds_to_tenths_witness :
  UploaderView.size_label 204800 = Js.lit "200.0 KB"
  /\ UploaderView.size_label 256 = Js.lit "0.3 KB"
  /\ UploaderView.tenths_of_kib 204800 <= 7500.
Proof.
  split; [reflexivity|]. split; [reflexivity|].
  refine (proj1 (proj2 (proj2 (proj2
    (size_label_rounds_to_tenths 204800)))) _).
  vm_compute. discriminate.
Defined.

Local Close Scope N_scope.

(** *** A mounted Viewer whose id changes *)

(** X19. The effect of the Viewer runs again when its id changes, from the
    state the first fetch left, and nothing resets that state.  While the
    second fetch is pending no spinner is shown, and when the first fetch
    ended in an error (record not found, or the fetch threw) the Viewer
    still shows that first error after the second fetch has found its
    record. *)
Theorem viewer_id_change_keeps_error
    (env1 env2 : Env) (id1 id2 : jsstring) (data : FileData.t) :
  reply_getDoc env1 id1 = Fulfilled None
  \/ (exists e, reply_getDoc env1 id1 = Rejected e) ->
  reply_getDoc env2 id2 = Fulfilled (Some data) ->
  let st1 := fst (FileViewer.mounted env1 id1) in
  let r2 := run (FileViewer.fetchFile env2 id2) st1 in
  Forall (fun x => FileViewer.render (fst x) <> FileViewer.spinner) (snd r2)
  /\ FileViewer.file (fst r2) = Some data
  /\ FileViewer.render (fst r2) = FileViewer.render st1
  /\ (exists message,
        FileViewer.render (fst r2)
        = FileViewer.error_view message (Js.lit "/")).
Proof.
  intros H1 H2. cbv zeta. rewrite fetchFile_run, H2, mounted_state.
  destruct H1 as [H1|[e H1]]; rewrite H1; simpl.
  - split; [repeat constructor; discriminate|].
    split; [reflexivity|]. split; [reflexivity|].
    eexists. reflexivity.
  - split; [repeat constructor; discriminate|].
    split; [reflexivity|]. split; [reflexivity|].
    eexists. reflexivity.
Qed.

Lemma viewer_id_change_keeps_error_witness :
  FileViewer.render
    (fst (run (FileViewer.fetchFile
                 (env_with [(Js.lit "s1", Uploader.sample_svg_doc)])
                 (Js.lit "s1"))
              (fst (FileViewer.mounted env_online (Js.lit "gone")))))
  = FileViewer.error_view FileViewer.msg_not_found (Js.lit "/").
Proof.
  pose proof (proj1 (proj2 (proj2
    (viewer_id_change_keeps_error env_online
       (env_with [(Js.lit "s1", Uploader.sample_svg_doc)])
       (Js.lit "gone") (Js.lit "s1") Uploader.sample_svg_doc
       (or_introl eq_refl) eq_refl)))) as H.
  cbv zeta in H. rewrite H. reflexivity.
Defined.

(** *** The copy button of a row *)

(** X20. The label of the copy buttons.  After a successful copy of a
    listed record, in a list with unique ids, that record's button reads
    the copied label and every other button the plain label, the two labels
    differ, and once 2000 ms have passed with no other timer pending every
    button reads the plain label again. *)
Theorem copy_button_labels (p : Uploader.Page) (file : UploadedFile.t) :
  NoDup (map UploadedFile.id (Uploader.files (Uploader.ui p))) ->
  In file (Uploader.files (Uploader.ui p)) ->
  Uploader.copied_label <> Js.lit "Copiar URL"
  /\ Uploader.copy_button_label (Uploader.ui (Uploader.copy file p)) file
     = Uploader.copied_label
  /\ (forall other,
        In other (Uploader.files (Uploader.ui p)) -> other <> file ->
        Uploader.copy_button_label (Uploader.ui (Uploader.copy file p)) other
        = Js.lit "Copiar URL")
  /\ (Uploader.timers p = [] ->
      forall row,
        Uploader.copy_button_label
          (Uploader.ui (Uploader.advance (Uploader.now p + 2000)
                          (Uploader.copy file p))) row
        = Js.lit "Copiar URL").
Proof.
  intros Hnd Hin. split; [apply eqb_neq; vm_compute; reflexivity|].
  rewrite copy_page. unfold Uploader.copy_button_label. simpl.
  split; [now rewrite eqb_refl|]. split.
  - intros other Ho Hne.
    destruct (Js.eqb (UploadedFile.id file) (UploadedFile.id other)) eqn:E;
      [|reflexivity].
    apply eqb_eq in E. exfalso. apply Hne.
    exact (same_id_same_record _ other file Hnd Ho Hin (eq_sym E)).
  - intros Hq row. rewrite advance_ui. simpl. rewrite Hq. simpl.
    rewrite Z.leb_refl. reflexivity.
Qed.

Lemma copy_button_labels_witness :
  Uploader.copy_button_label
    (Uploader.ui (Uploader.copy (Uploader.sample_record "a1" "photo.png")
                                Uploader.sample_page))
    (Uploader.sample_record "b2" "scan.png")
  = Js.lit "Copiar URL".
Proof.
  refine (proj1 (proj2 (proj2
    (copy_button_labels Uploader.sample_page
       (Uploader.sample_record "a1" "photo.png") _ _)))
    (Uploader.sample_record "b2" "scan.png") _ _).
  - repeat constructor; simpl; intuition discriminate.
  - left. reflexivity.
  - right. left. reflexivity.
  - discriminate.
Defined.

(* ------------------------------------------------------------------ *)
(** * The in-memory variant *)

Lemma legacy_record_eta (f : Legacy.UploadedFile) :
  {| Legacy.id := Legacy.id f; Legacy.file := Legacy.file f;
     Legacy.displayName := Legacy.displayName f;
     Legacy.url := Legacy.url f |} = f.
Proof. destruct f. reflexivity. Qed.

Lemma revoked_cleanup (fs : list Legacy.UploadedFile) :
  Legacy.revoked (Legacy.cleanup fs) = map Legacy.url fs.
Proof.
  unfold Legacy.revoked, Legacy.cleanup.
  induction fs as [|f fs IH]; simpl; [reflexivity | now rewrite IH].
Qed.

(** X16. Intake of the in-memory variant.  A file of an accepted type is
    put at the head of the list, under its own name, with the object URL
    the browser made for it and the id [<name>-<time>], and no alert is
    shown; there is no size check, so this holds for a file of any size,
    also one above the 750 KiB ceiling of the Firestore variant.  A file of
    any other type, and no file at all, only shows the format alert and
    leaves the state as it was. *)
Theorem legacy_processFile_outcome
    (now : N) (objectUrl : jsstring) (selectedFile : option File.t)
    (st : Legacy.State) :
  match selectedFile with
  | Some f =>
      if Js.includes Legacy.acceptedFileTypes (File.type f) then
        Legacy.files (fst (Legacy.processFile now objectUrl (Some f) st))
        = {| Legacy.id := File.name f ++ Js.lit "-" ++ Js.toFixed0 now;
             Legacy.file := f;
             Legacy.displayName := File.name f;
             Legacy.url := objectUrl |} :: Legacy.files st
        /\ (forall e,
              In e (snd (Legacy.processFile now objectUrl (Some f) st)) ->
              forall m, e <> Legacy.alert m)
        /\ Legacy.editingFile
             (fst (Legacy.processFile now objectUrl (Some f) st))
           = Legacy.editingFile st
      else
        Legacy.processFile now objectUrl (Some f) st
        = (st, [Legacy.alert Legacy.msg_invalid_format])
  | None =>
      Legacy.processFile now objectUrl None st
      = (st, [Legacy.alert Legacy.msg_invalid_format])
  end
  /\ Legacy.acceptedFileTypes = Uploader.acceptedFileTypes
  /\ Legacy.msg_invalid_format = Uploader.msg_invalid_format.
Proof.
  split; [|split; reflexivity].
  destruct selectedFile as [f|]; [|reflexivity].
  unfold Legacy.processFile.
  destruct (Js.includes Legacy.acceptedFileTypes (File.type f));
    [|reflexivity].
  simpl. split; [reflexivity|]. split; [|reflexivity].
  intros e [<-|Hin] m; [discriminate|].
  unfold Legacy.cleanup in Hin. apply in_map_iff in Hin.
  destruct Hin as (g & <- & _). discriminate.
Qed.

(** X17. In the in-memory variant every change of the list revokes the
    object URLs of all the records that were listed before it, also of the
    ones that stay listed.  After a file is added every record listed
    before is still listed and its URL has been revoked; the same holds for
    the records a delete keeps and for the records of a list after a rename
    commit. *)
Theorem legacy_list_change_revokes_urls
    (now : N) (objectUrl : jsstring) (f : File.t)
    (target : Legacy.UploadedFile) (st : Legacy.State) :
  (Js.includes Legacy.acceptedFileTypes (File.type f) = true ->
   forall g, In g (Legacy.files st) ->
     In g (Legacy.files
             (fst (Legacy.processFile now objectUrl (Some f) st)))
     /\ In (Legacy.url g)
           (Legacy.revoked
              (snd (Legacy.processFile now objectUrl (Some f) st))))
  /\ (forall g, In g (Legacy.files st) ->
        Legacy.id g <> Legacy.id target ->
        In g (Legacy.files (fst (Legacy.handleDelete target st)))
        /\ In (Legacy.url g)
              (Legacy.revoked (snd (Legacy.handleDelete target st))))
  /\ (forall editing, Legacy.editingFile st = Some editing ->
        map Legacy.url (Legacy.files (fst (Legacy.handleSaveEdit st)))
        = map Legacy.url (Legacy.files st)
        /\ Legacy.revoked (snd (Legacy.handleSaveEdit st))
           = map Legacy.url (Legacy.files st)).
Proof.
  split; [|split].
  - intros Hacc g Hg. unfold Legacy.processFile. rewrite Hacc. simpl.
    split; [now right|].
    change (In (Legacy.url g)
               (Legacy.revoked (Legacy.cleanup (Legacy.files st)))).
    rewrite revoked_cleanup. now apply in_map.
  - intros g Hg Hne. unfold Legacy.handleDelete. simpl. split.
    + apply filter_In. split; [exact Hg|].
      apply negb_true_iff, eqb_neq. exact Hne.
    + right.
      change (In (Legacy.url g)
                 (Legacy.revoked (Legacy.cleanup (Legacy.files st)))).
      rewrite revoked_cleanup. now apply in_map.
  - intros editing He. unfold Legacy.handleSaveEdit. rewrite He. simpl.
    split.
    + rewrite map_map. apply map_ext. intros g.
      destruct (Js.eqb (Legacy.id g) (Legacy.id editing)); reflexivity.
    + apply revoked_cleanup.
Qed.

(** X18. Rename in the in-memory variant.  Enter always leaves edit mode.
    With an empty buffer every record keeps its name; with any other
    buffer, white space included, the records with the edited id take the
    buffer as typed, untrimmed, and the others keep theirs.  The loss of
    focus cancels: it leaves edit mode and changes no record. *)
Theorem legacy_rename
    (st : Legacy.State) (editing : Legacy.UploadedFile) :
  Legacy.editingFile st = Some editing ->
  Legacy.onKeyDown Uploader.Enter st = Legacy.handleSaveEdit st
  /\ Legacy.editingFile (fst (Legacy.handleSaveEdit st)) = None
  /\ Legacy.newDisplayName (fst (Legacy.handleSaveEdit st)) = []
  /\ (Legacy.newDisplayName st = [] ->
      Legacy.files (fst (Legacy.handleSaveEdit st)) = Legacy.files st)
  /\ (Legacy.newDisplayName st <> [] ->
      map Legacy.displayName (Legacy.files (fst (Legacy.handleSaveEdit st)))
      = map (fun f =>
               if Js.eqb (Legacy.id f) (Legacy.id editing)
               then Legacy.newDisplayName st
               else Legacy.displayName f) (Legacy.files st))
  /\ map Legacy.id (Legacy.files (fst (Legacy.handleSaveEdit st)))
     = map Legacy.id (Legacy.files st)
  /\ Legacy.files (fst (Legacy.onBlur st)) = Legacy.files st
  /\ Legacy.editingFile (fst (Legacy.onBlur st)) = None.
Proof.
  intros He. split; [reflexivity|].
  unfold Legacy.handleSaveEdit. rewrite He. simpl.
  split; [reflexivity|]. split; [reflexivity|]. split.
  { intros Hb. rewrite Hb. simpl.
    induction (Legacy.files st) as [|g gs IH]; [reflexivity|].
    simpl. rewrite IH. f_equal.
    destruct (Js.eqb (Legacy.id g) (Legacy.id editing));
      [apply legacy_record_eta | reflexivity]. }
  split.
  { intros Hb. apply truthy_nonempty in Hb.
    rewrite map_map. apply map_ext. intros g.
    destruct (Js.eqb (Legacy.id g) (Legacy.id editing)); [|reflexivity].
    simpl. unfold Legacy.name_or. now rewrite Hb. }
  split.
  { rewrite map_map. apply map_ext. intros g.
    destruct (Js.eqb (Legacy.id g) (Legacy.id editing)); reflexivity. }
  split; reflexivity.
Qed.

Lemma legacy_rename_witness :
  map Legacy.displayName
    (Legacy.files (fst (Legacy.handleSaveEdit Legacy.sample_state)))
  = [Js.lit " "; Js.lit "a.png"].
Proof.
  pose proof (proj1 (proj2 (proj2 (proj2 (proj2
    (legacy_rename Legacy.sample_state
       (Legacy.sample_record "b.png" "blob:2") eq_refl)))))) as H.
  rewrite H; [reflexivity | discriminate].
Defined.

Lemma legacy_list_change_revokes_urls_witness :
  In (Js.lit "blob:1")
     (Legacy.revoked
        (snd (Legacy.processFile 1700000000001 (Js.lit "blob:3")
                (Some (Uploader.sample_png 1048576)) Legacy.sample_state))).
Proof.
  refine (proj2 (proj1
    (legacy_list_change_revokes_urls 1700000000001 (Js.lit "blob:3")
       (Uploader.sample_png 1048576)
       (Legacy.sample_record "b.png" "blob:2") Legacy.sample_state)
    eq_refl (Legacy.sample_record "a.png" "blob:1") _)).
  right. left. reflexivity.
Defined.
